(** * The video splitter of app/main.py

    A shallow embedding of the job registry ([JOBS]), the job runner
    ([_run_split_job]), the transcoder helpers ([_check_ffmpeg],
    [ffprobe_duration], [split_video]), the credential and access checks
    ([decode_bearer], [current_user], [_authorize_video_access]) and the
    endpoints built on them ([split_async], [job_status], [split_sync],
    [get_segment], [get_source], [get_video], the listing of [list_videos]).

    Python state is threaded explicitly through a state-and-exception monad;
    everything the program asks of the outside (sub-processes, the file
    system, the clock, token decoding, float/text conversion) is answered by
    an environment [Env], indexed by the number of requests made so far, so
    that the outside may answer differently each time it is asked. *)

From Stdlib Require Import Floats ZArith Ascii String.
From stdpp Require Import gmap strings list pretty sorting.

Open Scope string_scope.
Open Scope Z_scope.

(** ** Python values stored in dictionaries *)

(** [VStamp t] stands for [datetime.utcnow().isoformat() + "Z"] taken when the
    clock read [t] (microseconds since the epoch). *)
Inductive value :=
| VNone
| VStr (s : string)
| VInt (n : Z)
| VStamp (t : Z).

#[global] Instance value_eq_dec : EqDecision value.
Proof. solve_decision. Defined.

(** A dictionary with string keys: a job record, a metadata record, the
    claims of a token. *)
Abbreviation dict := (gmap string value).

(** [d.get(k)]: the stored value, or [None]. *)
Definition dict_get (d : dict) (k : string) : value := default VNone (d !! k).

(** ** String helpers of the runtime, on ASCII strings *)

Definition ascii_lower (c : ascii) : ascii :=
  let n := nat_of_ascii c in
  if ((65 <=? n) && (n <=? 90))%nat then ascii_of_nat (n + 32) else c.

Fixpoint lower (s : string) : string :=
  match s with
  | EmptyString => EmptyString
  | String c s' => String (ascii_lower c) (lower s')
  end.

Definition startswith (s p : string) : bool := String.prefix p s.

Definition endswith (s p : string) : bool :=
  String.prefix (String.rev p) (String.rev s).

(** [str.strip()] removes leading and trailing white space. *)
Definition is_whitespace (c : ascii) : bool :=
  let n := nat_of_ascii c in
  ((9 <=? n) && (n <=? 13) || (28 <=? n) && (n <=? 32))%nat.

Fixpoint lstrip (s : string) : string :=
  match s with
  | EmptyString => EmptyString
  | String c s' => if is_whitespace c then lstrip s' else s
  end.

Definition strip (s : string) : string :=
  String.rev (lstrip (String.rev (lstrip s))).

(** A string holds a given character; [str] arguments of the system calls
    must hold no NUL. *)
Fixpoint contains_char (c : ascii) (s : string) : bool :=
  match s with
  | EmptyString => false
  | String x s' => Ascii.eqb x c || contains_char c s'
  end.

Definition has_nul (s : string) : bool := contains_char Ascii.zero s.

(** [repr] of a string and of a list of strings. The string is in double
    quotes when it holds a single quote and no double quote, in single quotes
    otherwise; the quote and the backslash are escaped, and so are the
    control characters. (Characters outside ASCII are kept, as Python keeps
    the printable ones.) *)
Definition dquote : ascii := ascii_of_nat 34.
Definition squote : ascii := ascii_of_nat 39.
Definition backslash : ascii := ascii_of_nat 92.

Definition hex_digit (n : nat) : ascii :=
  default "0"%char (String.get n "0123456789abcdef").

Definition repr_char (quote c : ascii) : string :=
  let n := nat_of_ascii c in
  if Ascii.eqb c quote || Ascii.eqb c backslash then String backslash (String c "")
  else if (n =? 9)%nat then String backslash "t"
  else if (n =? 10)%nat then String backslash "n"
  else if (n =? 13)%nat then String backslash "r"
  else if (n <? 32)%nat || (n =? 127)%nat then
    String backslash (String "x" (String (hex_digit (n / 16)%nat) (String (hex_digit (n mod 16)%nat) "")))
  else String c "".

Fixpoint repr_body (quote : ascii) (s : string) : string :=
  match s with
  | EmptyString => EmptyString
  | String c s' => repr_char quote c ++ repr_body quote s'
  end.

Definition py_repr (s : string) : string :=
  let quote :=
    if contains_char squote s && negb (contains_char dquote s) then dquote else squote in
  String quote (repr_body quote s ++ String quote "").

Fixpoint join_comma (l : list string) : string :=
  match l with
  | [] => ""
  | [x] => x
  | x :: l' => x ++ ", " ++ join_comma l'
  end.

Definition py_repr_list (l : list string) : string :=
  "[" ++ join_comma (py_repr <$> l) ++ "]".

(** [os.path.join(a, b)] on a POSIX system. *)
Definition os_path_join (a b : string) : string :=
  if startswith b "/" then b
  else if bool_decide (a = "") || endswith a "/" then a ++ b
  else a ++ "/" ++ b.

(** [os.path.basename(p)]: what follows the last slash. *)
Fixpoint basename_go (acc s : string) : string :=
  match s with
  | EmptyString => acc
  | String c s' =>
      if Ascii.eqb c "/" then basename_go "" s'
      else basename_go (acc ++ String c "") s'
  end.
Definition os_path_basename (p : string) : string := basename_go "" p.

(** [sorted] on a list of strings: code-point order. *)
Definition sorted (l : list string) : list string := merge_sort String.le l.

(** ** Exceptions *)

Inductive exn :=
| HTTPException (status_code : Z) (detail : string)
| CalledProcessError (returncode : Z) (cmd : list string)
| OSError (errno : Z) (strerror : string) (filename : string)
| ValueError (msg : string)
| OverflowError (msg : string).

#[global] Instance exn_eq_dec : EqDecision exn.
Proof. solve_decision. Defined.

(** Every class above derives from [Exception]. *)
Definition isinstance_Exception (e : exn) : bool :=
  match e with
  | HTTPException _ _ | CalledProcessError _ _ | OSError _ _ _
  | ValueError _ | OverflowError _ => true
  end.

Definition isinstance_ValueError (e : exn) : bool :=
  match e with ValueError _ => true | _ => false end.

Definition isinstance_CalledProcessError (e : exn) : bool :=
  match e with CalledProcessError _ _ => true | _ => false end.

(** The members of [signal.Signals] on Linux (CPython 3.11): the signals 1
    to 31 and the two ends of the real-time range. *)
Definition signal_name (n : Z) : option string :=
  match n with
  | 1 => Some "SIGHUP" | 2 => Some "SIGINT" | 3 => Some "SIGQUIT"
  | 4 => Some "SIGILL" | 5 => Some "SIGTRAP" | 6 => Some "SIGABRT"
  | 7 => Some "SIGBUS" | 8 => Some "SIGFPE" | 9 => Some "SIGKILL"
  | 10 => Some "SIGUSR1" | 11 => Some "SIGSEGV" | 12 => Some "SIGUSR2"
  | 13 => Some "SIGPIPE" | 14 => Some "SIGALRM" | 15 => Some "SIGTERM"
  | 16 => Some "SIGSTKFLT" | 17 => Some "SIGCHLD" | 18 => Some "SIGCONT"
  | 19 => Some "SIGSTOP" | 20 => Some "SIGTSTP" | 21 => Some "SIGTTIN"
  | 22 => Some "SIGTTOU" | 23 => Some "SIGURG" | 24 => Some "SIGXCPU"
  | 25 => Some "SIGXFSZ" | 26 => Some "SIGVTALRM" | 27 => Some "SIGPROF"
  | 28 => Some "SIGWINCH" | 29 => Some "SIGIO" | 30 => Some "SIGPWR"
  | 31 => Some "SIGSYS" | 34 => Some "SIGRTMIN" | 64 => Some "SIGRTMAX"
  | _ => None
  end.

(** [str(e)], as the classes define it: Starlette's [HTTPException.__str__],
    [subprocess.CalledProcessError.__str__], [OSError.__str__] with a file
    name, and the message for the others. *)
Definition str_exn (e : exn) : string :=
  match e with
  | HTTPException code detail => pretty code ++ ": " ++ detail
  | CalledProcessError rc cmd =>
      if rc <? 0 then
        match signal_name (- rc) with
        | Some name =>
            "Command '" ++ py_repr_list cmd ++ "' died with <Signals." ++ name
              ++ ": " ++ pretty (- rc) ++ ">."
        | None =>
            "Command '" ++ py_repr_list cmd ++ "' died with unknown signal "
              ++ pretty (- rc) ++ "."
        end
      else "Command '" ++ py_repr_list cmd
             ++ "' returned non-zero exit status " ++ pretty rc ++ "."
  | OSError errno strerror filename =>
      "[Errno " ++ pretty errno ++ "] " ++ strerror ++ ": " ++ py_repr filename
  | ValueError msg => msg
  | OverflowError msg => msg
  end.

(** ** Floats: IEEE 754 binary64, as Python's [float] *)

(** Conversion of a Python [int] operand to [float] (round to nearest, ties to
    even); [None] when it raises [OverflowError]. *)
Definition int_to_float (z : Z) : option float :=
  match binary_normalize prec emax z 0 false with
  | S754_infinity _ => None
  | sf => Some (SF2Prim sf)
  end.

(** [max(a, b)] on floats: [b] replaces [a] only when [b > a]. *)
Definition py_max_float (a b : float) : float :=
  if PrimFloat.ltb a b then b else a.

(** The literal [0.1], that is the double 0x1.999999999999ap-4. *)
Definition SEG_TIME_FLOOR : float := 0x1.999999999999ap-4%float.

(** ** The outside world *)

(** What became of a process: it ran and exited, with its output as text;
    it ran and exited, but its output is no text in the locale's encoding
    (decoding it raises [UnicodeDecodeError] for that [encoding], with the
    [problem] found, as in [byte 0xff in position 0: invalid start byte]);
    or it could not be started. *)
Inductive proc_result :=
| Exited (returncode : Z) (stdout : string)
| ExitedUndecodable (returncode : Z) (encoding problem : string)
| NotSpawned (errno : Z) (strerror : string).

(** [str(e)] for a [UnicodeDecodeError]. *)
Definition decode_error_message (encoding problem : string) : string :=
  "'" ++ encoding ++ "' codec can't decode " ++ problem.

Inductive load_result :=
| Loaded (d : dict)
| LoadOSError (errno : Z) (strerror : string)
| LoadDecodeError (msg : string).

(** What the program cannot decide by itself. The [nat] argument is the
    number of requests made to the outside before this one. *)
Record Env := {
  environ_DATA_DIR : option string;
  clock : nat → Z;
  subprocess_exec : nat → list string → proc_result;
  fs_makedirs : nat → string → option (Z * string);
  fs_listdir : nat → string → (Z * string) + list string;
  fs_exists : nat → string → bool;
  fs_load_json : nat → string → load_result;
  jwt_decode : string → option dict;
  float_of_str : string → option float;
  str_of_float : float → string
}.

(** What happened, in order: the commands run and the registry writes. *)
Inductive event :=
| Spawn (cmd : list string)
| JobWrite (video_id : string) (record : dict).

(** A background task: the arguments of [_run_split_job]. *)
Record task := { task_video_id : string; task_parts : Z; task_mode : string }.

Record World := {
  JOBS : gmap string dict;
  background_tasks : list task;
  trace : list event;
  ticks : nat
}.

Definition initial_world : World :=
  {| JOBS := ∅; background_tasks := []; trace := []; ticks := 0 |}.

(** ** The state-and-exception monad *)

Definition M (A : Type) : Type := World → (exn + A) * World.

Definition ret {A} (a : A) : M A := fun w => (inr a, w).

Definition raise {A} (e : exn) : M A := fun w => (inl e, w).

Definition bind {A B} (m : M A) (k : A → M B) : M B :=
  fun w =>
    match m w with
    | (inr a, w') => k a w'
    | (inl e, w') => (inl e, w')
    end.

Notation "'let*' x ':=' m 'in' k" := (bind m (fun x => k))
  (at level 10, x pattern, m at level 100, k at level 200).

(** [try: body except C as e: handler e], where [caught] tells the instances
    of [C]. *)
Definition try_except {A} (body : M A) (caught : exn → bool) (handler : exn → M A) : M A :=
  fun w =>
    match body w with
    | (inr a, w') => (inr a, w')
    | (inl e, w') => if caught e then handler e w' else (inl e, w')
    end.

(** One request to the outside: its index. *)
Definition tick : M nat :=
  fun w => (inr (ticks w),
            {| JOBS := JOBS w; background_tasks := background_tasks w;
               trace := trace w; ticks := S (ticks w) |}).

Definition log (ev : event) : M unit :=
  fun w => (inr tt,
            {| JOBS := JOBS w; background_tasks := background_tasks w;
               trace := trace w ++ [ev]; ticks := ticks w |}).

(** [with JLOCK: body]. The lock serialises the registry accesses of
    concurrent threads; in this sequential model the block just runs. *)
Definition with_JLOCK {A} (body : M A) : M A := body.

(** [JOBS[video_id] = record] *)
Definition jobs_set (video_id : string) (record : dict) : M unit :=
  let* _ := log (JobWrite video_id record) in
  fun w => (inr tt,
            {| JOBS := <[video_id := record]> (JOBS w);
               background_tasks := background_tasks w;
               trace := trace w; ticks := ticks w |}).

(** [JOBS.get(video_id)] *)
Definition jobs_get (video_id : string) : M (option dict) :=
  fun w => (inr (JOBS w !! video_id), w).

(** [background_tasks.add_task(_run_split_job, video_id, parts, mode)] *)
Definition add_task (t : task) : M unit :=
  fun w => (inr tt,
            {| JOBS := JOBS w; background_tasks := background_tasks w ++ [t];
               trace := trace w; ticks := ticks w |}).

(** Hard-coded accounts. *)
Definition USERS : gmap string dict :=
  {[ "admin" := {[ "password" := VStr "admin123"; "role" := VStr "admin" ]};
     "user" := {[ "password" := VStr "user123"; "role" := VStr "user" ]} ]}.

(** [USERS.get(user, {}).get("role")] *)
Definition user_role (user : value) : value :=
  match user with
  | VStr name => dict_get (default ∅ (USERS !! name)) "role"
  | _ => VNone
  end.

Section Program.
Variable E : Env.

Definition DATA_DIR : string := default "data" (environ_DATA_DIR E).

(** *** Requests to the outside *)

(** [datetime.utcnow().isoformat() + "Z"] *)
Definition utcnow_iso : M value :=
  let* n := tick in ret (VStamp (clock E n)).

(** Start a process and wait for it. An argument that holds a NUL is
    refused with a [ValueError] before anything is started. *)
Definition spawn (cmd : list string) : M proc_result :=
  if existsb has_nul cmd then raise (ValueError "embedded null byte")
  else
    let* n := tick in
    let* _ := log (Spawn cmd) in
    match subprocess_exec E n cmd with
    | NotSpawned errno strerror =>
        raise (OSError errno strerror (default "" (head cmd)))
    | r => ret r
    end.

(** The exit status of a process that ran. *)
Definition returncode_of (r : proc_result) : Z :=
  match r with
  | Exited rc _ | ExitedUndecodable rc _ _ => rc
  | NotSpawned _ _ => 0
  end.

(** [subprocess.run(cmd, check=True)] and [subprocess.check_call(cmd)]: the
    output is not read. *)
Definition subprocess_check_call (cmd : list string) : M unit :=
  let* r := spawn cmd in
  let rc := returncode_of r in
  if rc =? 0 then ret tt else raise (CalledProcessError rc cmd).

(** [subprocess.check_output(cmd, text=True)]: the output is read and
    decoded, which raises [UnicodeDecodeError] (a [ValueError]) when it is no
    text, before the exit status is looked at. *)
Definition subprocess_check_output (cmd : list string) : M string :=
  let* r := spawn cmd in
  match r with
  | Exited rc out => if rc =? 0 then ret out else raise (CalledProcessError rc cmd)
  | ExitedUndecodable _ encoding problem =>
      raise (ValueError (decode_error_message encoding problem))
  | NotSpawned errno strerror => raise (OSError errno strerror (default "" (head cmd)))
  end.

(** [os.makedirs(path, exist_ok=True)]; a path that holds a NUL is refused
    with a [ValueError] (by the [mkdir] that follows the look at the
    parents). *)
Definition os_makedirs (path : string) : M unit :=
  let* n := tick in
  if has_nul path then raise (ValueError "embedded null byte")
  else
    match fs_makedirs E n path with
    | None => ret tt
    | Some (errno, strerror) => raise (OSError errno strerror path)
    end.

(** [os.listdir(path)]; a path that holds a NUL is refused with a
    [ValueError]. *)
Definition os_listdir (path : string) : M (list string) :=
  if has_nul path then raise (ValueError "embedded null byte")
  else
    let* n := tick in
    match fs_listdir E n path with
    | inr names => ret names
    | inl (errno, strerror) => raise (OSError errno strerror path)
    end.

(** [os.path.exists(path)] *)
Definition os_path_exists (path : string) : M bool :=
  let* n := tick in ret (fs_exists E n path).

(** [float(s)] *)
Definition py_float (s : string) : M float :=
  match float_of_str E s with
  | Some x => ret x
  | None => raise (ValueError ("could not convert string to float: " ++ py_repr s))
  end.

(** [x / n] for a float [x] and an int [n] that is not zero. *)
Definition float_div_int (x : float) (n : Z) : M float :=
  match int_to_float n with
  | Some y => ret (x / y)%float
  | None => raise (OverflowError "int too large to convert to float")
  end.

(** *** ffmpeg helpers *)

Definition _check_ffmpeg : M unit :=
  try_except
    (let* _ := subprocess_check_call ["ffmpeg"; "-version"] in
     subprocess_check_call ["ffprobe"; "-version"])
    isinstance_Exception
    (fun _ => raise (HTTPException 500 "ffmpeg/ffprobe not found on PATH")).

Definition ffprobe_cmd (path : string) : list string :=
  ["ffprobe"; "-v"; "error";
   "-show_entries"; "format=duration";
   "-of"; "default=noprint_wrappers=1:nokey=1";
   path].

Definition ffprobe_duration (path : string) : M float :=
  let* _ := _check_ffmpeg in
  let cmd := ffprobe_cmd path in
  let* out := subprocess_check_output cmd in
  let out := strip out in
  try_except
    (py_float out)
    isinstance_ValueError
    (fun _ => raise (HTTPException 400 "Could not determine video duration")).

(** [max(duration / max(parts, 1), 0.1)] *)
Definition seg_time_of (duration : float) (parts : Z) : M float :=
  let* q := float_div_int duration (Z.max parts 1) in
  ret (py_max_float q SEG_TIME_FLOOR).

(** The two command lines of [split_video]. *)
Definition ffmpeg_cmd (in_path out_dir : string) (seg_time : float) (mode : string)
    : list string :=
  if bool_decide (mode = "fast") then
    ["ffmpeg"; "-y"; "-i"; in_path;
     "-c"; "copy";
     "-f"; "segment";
     "-segment_time"; str_of_float E seg_time;
     "-reset_timestamps"; "1";
     os_path_join out_dir "part_%02d.mp4"]
  else
    ["ffmpeg"; "-y"; "-i"; in_path;
     "-vf"; "scale=1280:-2,unsharp=5:5:1.0";
     "-c:v"; "libx264"; "-preset"; "slower"; "-crf"; "20";
     "-c:a"; "aac"; "-b:a"; "128k";
     "-f"; "segment";
     "-segment_time"; str_of_float E seg_time;
     "-reset_timestamps"; "1";
     os_path_join out_dir "part_%02d.mp4"].

(** [if mode not in ("fast", "heavy"): mode = "heavy"] *)
Definition effective_mode (mode : string) : string :=
  if negb (bool_decide (mode = "fast") || bool_decide (mode = "heavy"))
  then "heavy" else mode.

(** [f.lower().endswith(".mp4")] *)
Definition is_mp4 (f : string) : bool := endswith (lower f) ".mp4".

Definition split_video (in_path out_dir : string) (parts : Z) (mode : string)
    : M (list string) :=
  let* _ := _check_ffmpeg in
  let* _ := os_makedirs out_dir in
  let* duration := ffprobe_duration in_path in
  let* seg_time := seg_time_of duration parts in
  let mode := effective_mode mode in
  let cmd := ffmpeg_cmd in_path out_dir seg_time mode in
  let* _ :=
    try_except
      (subprocess_check_call cmd)
      isinstance_CalledProcessError
      (fun e => raise (HTTPException 500 ("ffmpeg failed: " ++ str_exn e))) in
  let* names := os_listdir out_dir in
  let files := sorted (os_path_join out_dir <$> List.filter is_mp4 names) in
  ret files.

(** *** Metadata and authorisation *)

Definition json_meta_path (video_dir : string) : string :=
  os_path_join video_dir "meta.json".

(** [json.load] of the file at [p]. *)
Definition json_load_file (p : string) : M dict :=
  let* n := tick in
  match fs_load_json E n p with
  | Loaded d => ret d
  | LoadOSError errno strerror => raise (OSError errno strerror p)
  | LoadDecodeError msg => raise (ValueError msg)
  end.

Definition read_meta (video_dir : string) : M (option dict) :=
  let p := json_meta_path video_dir in
  let* present := os_path_exists p in
  if present then
    let* d := json_load_file p in ret (Some d)
  else ret None.

(** [authorization.split(" ", 1)[1]]: what follows the first space. *)
Fixpoint after_first_space (s : string) : option string :=
  match s with
  | EmptyString => None
  | String c s' => if Ascii.eqb c " " then Some s' else after_first_space s'
  end.

Definition decode_bearer (authorization : string) : M dict :=
  if bool_decide (authorization = "") || negb (startswith authorization "Bearer ")
  then raise (HTTPException 401 "Missing or invalid Authorization header")
  else
    let token := default "" (after_first_space authorization) in
    match jwt_decode E token with
    | Some claims => ret claims
    | None => raise (HTTPException 401 "Invalid or expired token")
    end.

Definition current_user (authorization : string) : M value :=
  let* claims := decode_bearer authorization in
  ret (dict_get claims "sub").

(** [not meta]: no record, or an empty one. *)
Definition falsy_meta (meta : option dict) : bool :=
  match meta with
  | None => true
  | Some d => bool_decide (d = ∅)
  end.

Definition _authorize_video_access (video_id : string) (user : value)
    : M (string * dict) :=
  let vdir := os_path_join DATA_DIR video_id in
  let* meta := read_meta vdir in
  if falsy_meta meta then raise (HTTPException 404 "Video not found")
  else
    let meta := default ∅ meta in
    let role := user_role user in
    if negb (bool_decide (role = VStr "admin"))
       && negb (bool_decide (dict_get meta "owner" = user))
    then raise (HTTPException 403 "Forbidden")
    else ret (vdir, meta).

(** *** The job runner and the endpoints of the registry *)

Definition processing_record (mode : string) (started_at : value) : dict :=
  {[ "status" := VStr "processing"; "mode" := VStr mode;
     "started_at" := started_at ]}.

Definition done_record (mode : string) (files : list string) (finished_at : value)
    : dict :=
  {[ "status" := VStr "done"; "mode" := VStr mode;
     "parts" := VInt (Z.of_nat (length files));
     "finished_at" := finished_at ]}.

Definition error_record (e : exn) (finished_at : value) : dict :=
  {[ "status" := VStr "error"; "error" := VStr (str_exn e);
     "finished_at" := finished_at ]}.

Definition queued_record (mode : string) (queued_at : value) : dict :=
  {[ "status" := VStr "queued"; "mode" := VStr mode;
     "queued_at" := queued_at ]}.

Definition _run_split_job (video_id : string) (parts : Z) (mode : string) : M unit :=
  try_except
    (let vdir := os_path_join DATA_DIR video_id in
     let in_path := os_path_join vdir "input.mp4" in
     let out_dir := os_path_join vdir ("segments_" ++ mode) in
     let* _ :=
       with_JLOCK
         (let* now := utcnow_iso in
          jobs_set video_id (processing_record mode now)) in
     let* files := split_video in_path out_dir parts mode in
     with_JLOCK
       (let* now := utcnow_iso in
        jobs_set video_id (done_record mode files now)))
    isinstance_Exception
    (fun e =>
       with_JLOCK
         (let* now := utcnow_iso in
          jobs_set video_id (error_record e now))).

(** The response of [split_async]: [{"job": video_id, "status": "queued"}]. *)
Definition split_async (video_id : string) (parts : Z) (mode : string)
    (authorization : string) : M dict :=
  let* user := current_user authorization in
  let* (vdir, _) := _authorize_video_access video_id user in
  let* present := os_path_exists (os_path_join vdir "input.mp4") in
  if negb present then raise (HTTPException 404 "Video not found")
  else
    let* _ :=
      with_JLOCK
        (let* now := utcnow_iso in
         jobs_set video_id (queued_record mode now)) in
    let* _ := add_task {| task_video_id := video_id; task_parts := parts;
                          task_mode := mode |} in
    ret {[ "job" := VStr video_id; "status" := VStr "queued" ]}.

Definition job_status (video_id : string) (authorization : string) : M dict :=
  let* user := current_user authorization in
  let* _ := _authorize_video_access video_id user in
  let* job := with_JLOCK (jobs_get video_id) in
  match job with
  | None => ret {[ "status" := VStr "unknown" ]}
  | Some j => if bool_decide (j = ∅) then ret {[ "status" := VStr "unknown" ]} else ret j
  end.

(** The scheduler: once the response is sent, the tasks added during the
    request run one after the other. *)
Fixpoint run_tasks (ts : list task) : M unit :=
  match ts with
  | [] => ret tt
  | t :: ts' =>
      let* _ := _run_split_job (task_video_id t) (task_parts t) (task_mode t) in
      run_tasks ts'
  end.

Definition run_background_tasks : M unit :=
  fun w =>
    run_tasks (background_tasks w)
      {| JOBS := JOBS w; background_tasks := []; trace := trace w; ticks := ticks w |}.

(** One request to [POST /videos/{video_id}/split_async], served to the end. *)
Definition serve_split_async (video_id : string) (parts : Z) (mode : string)
    (authorization : string) : M dict :=
  let* response := split_async video_id parts mode authorization in
  let* _ := run_background_tasks in
  ret response.

End Program.

(** * Vocabulary for the properties *)

(** ** A small program logic for [M] *)

(** [triple m R Q X]: from any world [w], the run of [m] ends in a world
    related to [w] by [R], with a result satisfying [Q] or an exception
    satisfying [X]. *)
Definition triple {A} (m : M A) (R : relation World) (Q : A → Prop) (X : exn → Prop)
    : Prop :=
  ∀ w, R w (m w).2 ∧ match (m w).1 with inr a => Q a | inl e => X e end.

(** [quiet P w w']: from [w] to [w'] the registry and the task list did not
    change, the outside was asked zero or more times, and the only events
    are commands satisfying [P]. *)
Definition quiet (P : list string → Prop) (w w' : World) : Prop :=
  JOBS w' = JOBS w ∧ background_tasks w' = background_tasks w ∧
  (ticks w ≤ ticks w')%nat ∧
  ∃ cmds, trace w' = (trace w ++ (Spawn <$> cmds))%list ∧ Forall P cmds.

(** The exceptions with a message. *)
Definition has_message (e : exn) : Prop := str_exn e ≠ "".

Section Answers.
Variable E : Env.

(** The outside answered [cmd] with exit status [rc] and output [out]. *)
Definition answered (cmd : list string) (rc : Z) (out : string) : Prop :=
  ∃ n, subprocess_exec E n cmd = Exited rc out.

(** [ffprobe] printed a duration that reads as [d]. *)
Definition probed (path : string) (d : float) : Prop :=
  ∃ out, answered (ffprobe_cmd path) 0 out ∧ float_of_str E (strip out) = Some d.

(** The outside listed [names] in [path]. *)
Definition listed (path : string) (names : list string) : Prop :=
  ∃ n, fs_listdir E n path = inr names.
End Answers.

Section SplitVideoVocabulary.
Variable E : Env.
Variables (in_path out_dir : string) (parts : Z) (mode : string).

(** The target duration of a segment for a source of [d] seconds, with
    [fp] the float of [max(parts, 1)]. *)
Definition target_seg_time (d fp : float) : float :=
  py_max_float (d / fp) SEG_TIME_FLOOR.

(** The command line that produces the segments. *)
Definition transcode_cmd (d fp : float) : list string :=
  ffmpeg_cmd E in_path out_dir (target_seg_time d fp) (effective_mode mode).

(** The commands [split_video] may run. *)
Definition split_video_cmd (cmd : list string) : Prop :=
  cmd = ["ffmpeg"; "-version"] ∨ cmd = ["ffprobe"; "-version"] ∨
  cmd = ffprobe_cmd in_path ∨
  ∃ d fp, probed E in_path d ∧ int_to_float (Z.max parts 1) = Some fp ∧
          cmd = transcode_cmd d fp.

(** The files [split_video] returns, given the names the directory holds. *)
Definition segment_files (names : list string) : list string :=
  sorted (os_path_join out_dir <$> List.filter is_mp4 names).
End SplitVideoVocabulary.

Section RunnerVocabulary.
Variable E : Env.
Variables (video_id : string) (parts : Z) (mode : string).

(** The paths [_run_split_job] works on. *)
Definition job_in_path : string :=
  os_path_join (os_path_join (DATA_DIR E) video_id) "input.mp4".
Definition job_out_dir : string :=
  os_path_join (os_path_join (DATA_DIR E) video_id) ("segments_" ++ mode).

(** The world after [JOBS[video_id] = mk(now)], [now] read from the clock. *)
Definition stamped_write (mk : value → dict) (w : World) : World :=
  let record := mk (VStamp (clock E (ticks w))) in
  {| JOBS := <[video_id := record]> (JOBS w);
     background_tasks := background_tasks w;
     trace := (trace w ++ [JobWrite video_id record])%list;
     ticks := S (ticks w) |}.

(** The world once the job is marked as processing, and the run of
    [split_video] from there. *)
Definition started (w : World) : World := stamped_write (processing_record mode) w.
Definition split_run (w : World) : (exn + list string) * World :=
  split_video E job_in_path job_out_dir parts mode (started w).

(** The record the runner ends with, and the world it leaves. *)
Definition terminal_record (w : World) : dict :=
  let now := VStamp (clock E (ticks (split_run w).2)) in
  match (split_run w).1 with
  | inr files => done_record mode files now
  | inl e => error_record e now
  end.
Definition finished (w : World) : World := (_run_split_job E video_id parts mode w).2.
End RunnerVocabulary.

(** ** Vocabulary for the endpoints *)

(** The world after [k] more requests to the outside and nothing else. *)
Definition asked (k : nat) (w : World) : World :=
  {| JOBS := JOBS w; background_tasks := background_tasks w;
     trace := trace w; ticks := (k + ticks w)%nat |}.

(** The metadata file of a video. *)
Definition meta_path (E : Env) (video_id : string) : string :=
  json_meta_path (os_path_join (DATA_DIR E) video_id).

(** The world [w] with another registry. *)
Definition with_registry (J : gmap string dict) (w : World) : World :=
  {| JOBS := J; background_tasks := background_tasks w;
     trace := trace w; ticks := ticks w |}.

(** The registry after an event. *)
Definition apply_event (J : gmap string dict) (ev : event) : gmap string dict :=
  match ev with
  | JobWrite video_id record => <[video_id := record]> J
  | Spawn _ => J
  end.

(** What a poll of [video_id] reads as status in the registry [J]. *)
Definition polled_status (J : gmap string dict) (video_id : string) : value :=
  dict_get (default ∅ (J !! video_id)) "status".

(** The status a poll would read after each of the events [evs], in order. *)
Fixpoint status_history (video_id : string) (J : gmap string dict) (evs : list event)
    : list value :=
  match evs with
  | [] => []
  | ev :: evs' =>
      let J' := apply_event J ev in
      polled_status J' video_id :: status_history video_id J' evs'
  end.

(** The place of a status in the lifecycle. *)
Definition status_rank (v : value) : nat :=
  match v with
  | VStr s =>
      if bool_decide (s = "queued") then 1
      else if bool_decide (s = "processing") then 2
      else if bool_decide (s = "done") || bool_decide (s = "error") then 3
      else 0
  | _ => 0
  end.

Definition no_step_back (a b : value) : Prop := (status_rank a ≤ status_rank b)%nat.

(** ** The properties as the specification words them, where the program differs *)

Section AsSpecified.
Variable E : Env.

(** "The terminal record has status [error], includes a non-empty message;
    [started_at] and [finished_at] are both present and
    [finished_at >= started_at]." *)
Definition error_record_as_specified (video_id : string) (parts : Z) (mode : string)
    (w : World) : Prop :=
  ∃ r msg s f,
    JOBS (finished E video_id parts mode w) !! video_id = Some r ∧
    r !! "status" = Some (VStr "error") ∧
    r !! "error" = Some (VStr msg) ∧ msg ≠ "" ∧
    r !! "started_at" = Some (VStamp s) ∧
    r !! "finished_at" = Some (VStamp f) ∧ s ≤ f.

(** "For all job identifiers never submitted, [query(id)] returns
    [unknown]", never raising. *)
Definition unknown_as_specified (video_id authorization : string) (w : World) : Prop :=
  JOBS w !! video_id = None →
  (job_status E video_id authorization w).1 = inr {[ "status" := VStr "unknown" ]}.
End AsSpecified.

(** ** Sample environments *)

Definition nl : string := String (ascii_of_nat 10) "".

(** Tokens: ["t-user"] is the account [user], ["t-admin"] the account [admin],
    ["t-guest"] somebody else. *)
Definition sample_jwt_decode (token : string) : option dict :=
  if bool_decide (token = "t-user")
  then Some {[ "sub" := VStr "user"; "role" := VStr "user" ]}
  else if bool_decide (token = "t-admin")
  then Some {[ "sub" := VStr "admin"; "role" := VStr "admin" ]}
  else if bool_decide (token = "t-guest")
  then Some {[ "sub" := VStr "guest"; "role" := VStr "user" ]}
  else None.

(** A 40-second source owned by [user]; every tool works and the output
    directory ends up with four segments and a stray text file. *)
Definition env_40s : Env := {|
  environ_DATA_DIR := None;
  clock := λ n, 1000 + Z.of_nat n;
  subprocess_exec := λ _ cmd,
    match cmd with
    | "ffprobe" :: "-v" :: _ => Exited 0 ("40.000000" ++ nl)
    | _ => Exited 0 ""
    end;
  fs_makedirs := λ _ _, None;
  fs_listdir := λ _ _,
    inr ["part_01.mp4"; "part_00.mp4"; "part_03.MP4"; "part_02.mp4"; "notes.txt"];
  fs_exists := λ _ _, true;
  fs_load_json := λ _ _, Loaded {[ "owner" := VStr "user"; "video_id" := VStr "v1" ]};
  jwt_decode := sample_jwt_decode;
  float_of_str := λ s, if bool_decide (s = "40.000000") then Some 40%float else None;
  str_of_float := λ x, if PrimFloat.eqb x 10 then "10.0" else "?"
|}.

(** The same, without [ffmpeg] on the PATH. *)
Definition env_tool_missing : Env := {|
  environ_DATA_DIR := None;
  clock := λ n, 1000 + Z.of_nat n;
  subprocess_exec := λ _ _, NotSpawned 2 "No such file or directory";
  fs_makedirs := λ _ _, None;
  fs_listdir := λ _ _, inr [];
  fs_exists := λ _ _, true;
  fs_load_json := λ _ _, Loaded {[ "owner" := VStr "user"; "video_id" := VStr "v2" ]};
  jwt_decode := sample_jwt_decode;
  float_of_str := λ _, None;
  str_of_float := λ _, "?"
|}.

(** The tools are there, but [ffprobe] prints no duration. *)
Definition env_no_duration : Env := {|
  environ_DATA_DIR := None;
  clock := λ n, 1000 + Z.of_nat n;
  subprocess_exec := λ _ cmd,
    match cmd with
    | "ffprobe" :: "-v" :: _ => Exited 0 ("N/A" ++ nl)
    | _ => Exited 0 ""
    end;
  fs_makedirs := λ _ _, None;
  fs_listdir := λ _ _, inr [];
  fs_exists := λ _ _, true;
  fs_load_json := λ _ _, Loaded {[ "owner" := VStr "user" ]};
  jwt_decode := sample_jwt_decode;
  float_of_str := λ _, None;
  str_of_float := λ _, "?"
|}.

(** The transcoding itself exits with status 1. *)
Definition env_transcode_fails : Env := {|
  environ_DATA_DIR := None;
  clock := λ n, 1000 + Z.of_nat n;
  subprocess_exec := λ _ cmd,
    match cmd with
    | "ffprobe" :: "-v" :: _ => Exited 0 ("40.000000" ++ nl)
    | "ffmpeg" :: "-y" :: _ => Exited 1 ""
    | _ => Exited 0 ""
    end;
  fs_makedirs := λ _ _, None;
  fs_listdir := λ _ _, inr [];
  fs_exists := λ _ _, true;
  fs_load_json := λ _ _, Loaded {[ "owner" := VStr "user" ]};
  jwt_decode := sample_jwt_decode;
  float_of_str := λ s, if bool_decide (s = "40.000000") then Some 40%float else None;
  str_of_float := λ x, if PrimFloat.eqb x 10 then "10.0" else "?"
|}.

(** No video at all: no metadata file exists. *)
Definition env_no_video : Env := {|
  environ_DATA_DIR := None;
  clock := λ n, 1000 + Z.of_nat n;
  subprocess_exec := λ _ _, Exited 0 "";
  fs_makedirs := λ _ _, None;
  fs_listdir := λ _ _, inr [];
  fs_exists := λ _ _, false;
  fs_load_json := λ _ _, LoadOSError 2 "No such file or directory";
  jwt_decode := sample_jwt_decode;
  float_of_str := λ _, None;
  str_of_float := λ _, "?"
|}.

(** Values the sample runs produce. *)
Definition not_found_on_path : exn :=
  HTTPException 500 "ffmpeg/ffprobe not found on PATH".

Definition sample_meta : dict := {[ "owner" := VStr "user"; "video_id" := VStr "v1" ]}.

Definition sample_segments : list string :=
  ["data/v1/segments_fast/part_00.mp4"; "data/v1/segments_fast/part_01.mp4";
   "data/v1/segments_fast/part_02.mp4"; "data/v1/segments_fast/part_03.MP4"].

(** A world in which the job of [v1] has been submitted and served to the
    end, beside a queued job of another video [v0]. *)
Definition world_with_finished_job : World :=
  (serve_split_async env_40s "v1" 4 "fast" "Bearer t-user"
     (with_registry {[ "v0" := queued_record "fast" (VStamp 900) ]} initial_world)).2.


(** * Vocabulary for the further properties *)

(** The process ran and exited with status 0. *)
Definition exited_zero (r : proc_result) : bool :=
  match r with
  | Exited rc _ | ExitedUndecodable rc _ _ => rc =? 0
  | NotSpawned _ _ => false
  end.




(** The status stored for an identifier is terminal. *)
Definition settled (J : gmap string dict) (video_id : string) : Prop :=
  polled_status J video_id = VStr "done" ∨ polled_status J video_id = VStr "error".


(** * More of app/main.py: the synchronous split, the file endpoints and the listing *)

(** The response of [split_sync]. *)
Record split_response := {
  sr_video_id : string;
  sr_mode : string;
  sr_parts : Z;
  sr_segments : list string
}.

(** [FileResponse(path, media_type=..., filename=...)] with the headers the
    endpoint adds to it. *)
Record file_response := {
  fr_path : string;
  fr_media_type : string;
  fr_filename : string;
  fr_headers : gmap string string
}.

(** [f"/segments/{video_id}/{mode}/{name}"] *)
Definition segment_url (video_id mode name : string) : string :=
  "/segments/" ++ video_id ++ "/" ++ mode ++ "/" ++ name.


Section MoreProgram.
Variable E : Env.

Definition split_sync (video_id : string) (parts : Z) (mode : string)
    (authorization : string) : M split_response :=
  let* user := current_user E authorization in
  let* (vdir, _) := _authorize_video_access E video_id user in
  let in_path := os_path_join vdir "input.mp4" in
  let* present := os_path_exists E in_path in
  if negb present then raise (HTTPException 404 "Video not found")
  else
    let out_dir := os_path_join vdir ("segments_" ++ mode) in
    let* files := split_video E in_path out_dir parts mode in
    let segments := (λ x, segment_url video_id mode (os_path_basename x)) <$> files in
    ret {| sr_video_id := video_id; sr_mode := mode;
           sr_parts := Z.of_nat (length files); sr_segments := segments |}.

(** [os.path.join(vdir, f"segments_{mode}", filename)] for the directory of
    [video_id]. *)
Definition segment_path (video_id mode filename : string) : string :=
  os_path_join
    (os_path_join (os_path_join (DATA_DIR E) video_id) ("segments_" ++ mode)) filename.

Definition get_segment (video_id mode filename : string) (authorization : string)
    : M file_response :=
  let* user := current_user E authorization in
  let* (vdir, _) := _authorize_video_access E video_id user in
  let path := os_path_join (os_path_join vdir ("segments_" ++ mode)) filename in
  let* present := os_path_exists E path in
  if negb present then raise (HTTPException 404 "Not found")
  else
    ret {| fr_path := path; fr_media_type := "video/mp4"; fr_filename := filename;
           fr_headers := {[ "Cache-Control" := "public, max-age=3600" ]} |}.

Definition get_source (video_id : string) (authorization : string) : M file_response :=
  let* user := current_user E authorization in
  let vdir := os_path_join (DATA_DIR E) video_id in
  let* meta := read_meta E vdir in
  if falsy_meta meta then raise (HTTPException 404 "Video not found")
  else
    let meta := default ∅ meta in
    let owner := dict_get meta "owner" in
    let role := user_role user in
    if negb (bool_decide (role = VStr "admin")) && negb (bool_decide (owner = user))
    then raise (HTTPException 403 "Forbidden")
    else
      let path := os_path_join vdir "input.mp4" in
      let* present := os_path_exists E path in
      if negb present then raise (HTTPException 404 "Not found")
      else
        ret {| fr_path := path; fr_media_type := "video/mp4";
               fr_filename := "input.mp4"; fr_headers := ∅ |}.

(** The path of the route of [get_source]:
    ["/segments/{video_id}/source/input.mp4"]. *)
Definition get_source_route (video_id : string) : string :=
  "/segments/" ++ video_id ++ "/source/input.mp4".

Definition get_video (video_id : string) (authorization : string) : M dict :=
  let* user := current_user E authorization in
  let vdir := os_path_join (DATA_DIR E) video_id in
  let* meta := read_meta E vdir in
  if falsy_meta meta then raise (HTTPException 404 "Video not found")
  else
    let meta := default ∅ meta in
    let owner := dict_get meta "owner" in
    let role := user_role user in
    if negb (bool_decide (role = VStr "admin")) && negb (bool_decide (owner = user))
    then raise (HTTPException 403 "Forbidden")
    else
      ret {[ "video_id" := VStr video_id;
             "filename" := dict_get meta "filename";
             "duration" := dict_get meta "duration";
             "created_at" := dict_get meta "created_at";
             "source_url" := VStr ("/segments/" ++ video_id ++ "/source/input.mp4") ]}.
End MoreProgram.

(** ** Listing the videos *)

(** [items[start:stop]] for two ints: a negative bound counts from the end
    of the list, and a bound outside the list is clipped to it. *)
Definition py_slice {A} (items : list A) (start stop : Z) : list A :=
  let n := Z.of_nat (length items) in
  let clip i := if i <? 0 then Z.max (i + n) 0 else Z.min i n in
  let lo := clip start in
  let hi := clip stop in
  take (Z.to_nat (hi - lo)) (drop (Z.to_nat lo) items).

(** The [videos] of the response of [list_videos], from the sorted items:
    [start = (page - 1) * page_size], [end = start + page_size],
    [items[start:end]]. *)
Definition list_videos_page {A} (items : list A) (page page_size : Z) : list A :=
  let start := (page - 1) * page_size in
  let stop := start + page_size in
  py_slice items start stop.

(** The entry of a video in the listing. *)
Definition video_item (vid : string) (meta : dict) : dict :=
  {[ "video_id" := VStr vid;
     "duration" := dict_get meta "duration";
     "created_at" := dict_get meta "created_at";
     "filename" := dict_get meta "filename" ]}.

Section Listing.
Variable E : Env.
(** What [os.path.isdir] answers, request after request. *)
Variable fs_isdir : nat → string → bool.

(** [os.path.isdir(path)] *)
Definition os_path_isdir (path : string) : M bool :=
  let* n := tick in ret (fs_isdir n path).

(** The loop of [list_videos] over the names of the data directory; [items]
    is the list built so far. *)
Fixpoint list_videos_loop (user : value) (vids : list string) (items : list dict)
    : M (list dict) :=
  match vids with
  | [] => ret items
  | vid :: vids' =>
      let vdir := os_path_join (DATA_DIR E) vid in
      let* isdir := os_path_isdir vdir in
      if negb isdir then list_videos_loop user vids' items
      else
        let* meta := read_meta E vdir in
        if falsy_meta meta then list_videos_loop user vids' items
        else
          let meta := default ∅ meta in
          if bool_decide (dict_get meta "owner" = user)
             || bool_decide (user_role user = VStr "admin")
          then list_videos_loop user vids' (items ++ [video_item vid meta])
          else list_videos_loop user vids' items
  end.

(** The items of [list_videos] as collected, before they are sorted and
    paged. *)
Definition list_videos_items (authorization : string) : M (list dict) :=
  let* user := current_user E authorization in
  let* vids := os_listdir E (DATA_DIR E) in
  list_videos_loop user vids [].
End Listing.

(** [item] is the entry of the video [vid], whose metadata the caller [user]
    may see: a non-empty record owned by [user], or any for an administrator. *)
Definition listed_video (E : Env) (user : value) (vid : string) (item : dict) : Prop :=
  ∃ meta n,
    fs_load_json E n (meta_path E vid) = Loaded meta ∧ meta ≠ ∅ ∧
    (dict_get meta "owner" = user ∨ user_role user = VStr "admin") ∧
    item = video_item vid meta.

(** What a response of [split_sync] is made of. *)
Definition sync_response_of (E : Env) (video_id mode : string)
    (response : split_response)
    : Prop :=
  ∃ names,
    let files := segment_files (job_out_dir E video_id mode) names in
    listed E (job_out_dir E video_id mode) names ∧
    response = {| sr_video_id := video_id; sr_mode := mode;
                  sr_parts := Z.of_nat (length files);
                  sr_segments :=
                    (λ x, segment_url video_id mode (os_path_basename x)) <$> files |}.

(** ** More sample environments and values *)

(** The video [v5] belongs to [admin]; the account [user] holds two tokens,
    the second of which claims the role [admin]. *)
Definition env_other_owner : Env := {|
  environ_DATA_DIR := None;
  clock := λ n, 1000 + Z.of_nat n;
  subprocess_exec := λ _ _, Exited 0 "";
  fs_makedirs := λ _ _, None;
  fs_listdir := λ _ _, inr [];
  fs_exists := λ _ _, true;
  fs_load_json := λ _ _, Loaded {[ "owner" := VStr "admin"; "video_id" := VStr "v5" ]};
  jwt_decode := λ token,
    if bool_decide (token = "t-user-claims-admin")
    then Some {[ "sub" := VStr "user"; "role" := VStr "admin" ]}
    else sample_jwt_decode token;
  float_of_str := λ _, None;
  str_of_float := λ _, "?"
|}.


(** The record [get_video] answers for the metadata [meta] of [vid]. *)
Definition video_item_with_source (vid : string) (meta : dict) : dict :=
  {[ "video_id" := VStr vid;
     "filename" := dict_get meta "filename";
     "duration" := dict_get meta "duration";
     "created_at" := dict_get meta "created_at";
     "source_url" := VStr (get_source_route vid) ]}.

(** A data directory with the video [v1] of [user], the video [v2] of
    [admin] and a file that is no directory. *)
Definition sample_listing_meta (owner vid : string) : dict :=
  {[ "owner" := VStr owner; "video_id" := VStr vid;
     "filename" := VStr "clip.mp4"; "created_at" := VStr "2024-01-01T00:00:00Z" ]}.

Definition sample_isdir (n : nat) (path : string) : bool :=
  negb (bool_decide (path = "data/notes.txt")).

Definition env_listing : Env := {|
  environ_DATA_DIR := None;
  clock := λ n, 1000 + Z.of_nat n;
  subprocess_exec := λ _ _, Exited 0 "";
  fs_makedirs := λ _ _, None;
  fs_listdir := λ _ _, inr ["v1"; "notes.txt"; "v2"];
  fs_exists := λ _ _, true;
  fs_load_json := λ _ path,
    if bool_decide (path = "data/v1/meta.json") then Loaded (sample_listing_meta "user" "v1")
    else if bool_decide (path = "data/v2/meta.json")
         then Loaded (sample_listing_meta "admin" "v2")
         else LoadOSError 2 "No such file or directory";
  jwt_decode := sample_jwt_decode;
  float_of_str := λ _, None;
  str_of_float := λ _, "?"
|}.

(** * Reasoning about runs *)


Section Triples.
Context (R : relation World) `{!PreOrder R}.

Lemma triple_ret {A} (a : A) (Q : A → Prop) X : Q a → triple (ret a) R Q X.
Proof. intros Ha w. split; [reflexivity | exact Ha]. Qed.

Lemma triple_raise {A} e (Q : A → Prop) (X : exn → Prop) :
  X e → triple (raise e) R Q X.
Proof. intros He w. split; [reflexivity | exact He]. Qed.

Lemma triple_bind {A B} (m : M A) (k : A → M B) (P : A → Prop) Q X :
  triple m R P X → (∀ a, P a → triple (k a) R Q X) → triple (bind m k) R Q X.
Proof.
  intros Hm Hk w. unfold bind. specialize (Hm w).
  destruct (m w) as [[e|a] w1]; simpl in *; destruct Hm as [Hw Hr].
  - split; assumption.
  - destruct (Hk a Hr w1) as [Hw1 Hres]. split; [etrans; eassumption | exact Hres].
Qed.

Lemma triple_try {A} (body : M A) caught handler Q (Xb X : exn → Prop) :
  triple body R Q Xb →
  (∀ e, Xb e → caught e = true → triple (handler e) R Q X) →
  (∀ e, Xb e → caught e = false → X e) →
  triple (try_except body caught handler) R Q X.
Proof.
  intros Hb Hh Hpass w. unfold try_except. specialize (Hb w).
  destruct (body w) as [[e|a] w1]; simpl in *; destruct Hb as [Hw Hr].
  - destruct (caught e) eqn:Hc.
    + destruct (Hh e Hr Hc w1) as [Hw1 Hres]. split; [etrans; eassumption | exact Hres].
    + simpl. split; [assumption | by apply Hpass].
  - split; assumption.
Qed.

Lemma triple_weaken {A} (m : M A) (Q Q' : A → Prop) (X X' : exn → Prop) :
  triple m R Q X → (∀ a, Q a → Q' a) → (∀ e, X e → X' e) → triple m R Q' X'.
Proof.
  intros Hm HQ HX w. destruct (Hm w) as [Hw Hr]. split; [exact Hw|].
  destruct (m w).1; auto.
Qed.
End Triples.

Lemma bind_inr {A B} (m : M A) (k : A → M B) w b w' :
  bind m k w = (inr b, w') → ∃ a w1, m w = (inr a, w1) ∧ k a w1 = (inr b, w').
Proof.
  unfold bind. destruct (m w) as [[e|a] w1]; [discriminate|].
  intros H. by exists a, w1.
Qed.

(** ** Runs that leave the registry alone *)


#[global] Instance quiet_preorder P : PreOrder (quiet P).
Proof.
  split.
  - intros w. repeat split; try done. exists []. by rewrite app_nil_r.
  - intros w1 w2 w3 (HJ1 & HB1 & HT1 & c1 & Hc1 & HP1) (HJ2 & HB2 & HT2 & c2 & Hc2 & HP2).
    repeat split; try congruence; try lia.
    exists (c1 ++ c2)%list. split.
    + rewrite Hc2, Hc1, fmap_app, app_assoc. done.
    + by apply Forall_app.
Qed.

(** ** What the helpers do *)

Lemma append_nonempty_r (a b : string) : b ≠ "" → a ++ b ≠ "".
Proof. intros Hb. destruct a; simpl; [exact Hb | discriminate]. Qed.

Lemma str_HTTPException_nonempty code detail : str_exn (HTTPException code detail) ≠ "".
Proof. simpl. apply append_nonempty_r. discriminate. Qed.

Lemma str_CalledProcessError_nonempty rc cmd : str_exn (CalledProcessError rc cmd) ≠ "".
Proof. simpl. destruct (rc <? 0); [destruct (signal_name (- rc))|]; discriminate. Qed.

Lemma str_OSError_nonempty errno strerror filename :
  str_exn (OSError errno strerror filename) ≠ "".
Proof. simpl. discriminate. Qed.


(** Rule application, with the preorder found by instance search. *)
Ltac t_ret := apply triple_ret; [typeclasses eauto |].
Ltac t_raise := apply triple_raise; [typeclasses eauto |].
Ltac t_bind := eapply triple_bind; [typeclasses eauto | |].
Ltac t_try := eapply triple_try; [typeclasses eauto | | |].
Ltac t_weaken := eapply triple_weaken.

Section Helpers.
Variable E : Env.
Variable P : list string → Prop.


Lemma quiet_tick w :
  quiet P w {| JOBS := JOBS w; background_tasks := background_tasks w;
               trace := trace w; ticks := S (ticks w) |}.
Proof.
  repeat split; simpl; try lia. exists []. by rewrite app_nil_r.
Qed.

Lemma quiet_spawn w cmd :
  P cmd →
  quiet P w {| JOBS := JOBS w; background_tasks := background_tasks w;
               trace := (trace w ++ [Spawn cmd])%list; ticks := S (ticks w) |}.
Proof.
  intros Hc. repeat split; simpl; try lia. exists [cmd]. split; [done|].
  by constructor.
Qed.

Lemma spawn_triple cmd :
  P cmd →
  triple (spawn E cmd) (quiet P) (λ r, ∃ n, subprocess_exec E n cmd = r) has_message.
Proof.
  intros Hc w. unfold spawn. destruct (existsb has_nul cmd).
  { split; [reflexivity | discriminate]. }
  unfold bind, tick, log. simpl.
  destruct (subprocess_exec E (ticks w) cmd) as [rc out|rc enc pb|errno msg] eqn:Hx; simpl.
  - split; [by apply quiet_spawn | by exists (ticks w)].
  - split; [by apply quiet_spawn | by exists (ticks w)].
  - split; [by apply quiet_spawn | apply str_OSError_nonempty].
Qed.

Lemma subprocess_check_call_triple cmd :
  P cmd →
  triple (subprocess_check_call E cmd) (quiet P) (λ _, True) has_message.
Proof.
  intros Hc. unfold subprocess_check_call.
  t_bind; [by apply spawn_triple |].
  intros r _. cbv zeta. destruct (returncode_of r =? 0).
  - by t_ret.
  - t_raise. apply str_CalledProcessError_nonempty.
Qed.

Lemma subprocess_check_output_triple cmd :
  P cmd →
  triple (subprocess_check_output E cmd) (quiet P) (λ out, answered E cmd 0 out)
    has_message.
Proof.
  intros Hc. unfold subprocess_check_output.
  t_bind; [by apply spawn_triple |].
  intros [rc out|rc enc pb|errno msg] Ha.
  - destruct (rc =? 0) eqn:Hrc.
    + t_ret. apply Z.eqb_eq in Hrc. by subst rc.
    + t_raise. apply str_CalledProcessError_nonempty.
  - t_raise. discriminate.
  - t_raise. apply str_OSError_nonempty.
Qed.

Lemma os_makedirs_triple path :
  triple (os_makedirs E path) (quiet P) (λ _, True) has_message.
Proof.
  intros w. unfold os_makedirs, bind, tick. simpl.
  destruct (has_nul path); [split; [apply quiet_tick | discriminate]|].
  destruct (fs_makedirs E (ticks w) path) as [[errno msg]|]; simpl.
  - split; [apply quiet_tick | apply str_OSError_nonempty].
  - split; [apply quiet_tick | done].
Qed.

Lemma os_listdir_triple path :
  triple (os_listdir E path) (quiet P) (listed E path) has_message.
Proof.
  intros w. unfold os_listdir. destruct (has_nul path).
  { split; [reflexivity | discriminate]. }
  unfold bind, tick. simpl.
  destruct (fs_listdir E (ticks w) path) as [[errno msg]|names] eqn:Hx; simpl.
  - split; [apply quiet_tick | apply str_OSError_nonempty].
  - split; [apply quiet_tick | by exists (ticks w)].
Qed.

Lemma py_float_triple s :
  triple (py_float E s) (quiet P) (λ d, float_of_str E s = Some d)
    (λ e, isinstance_ValueError e = true).
Proof.
  unfold py_float. destruct (float_of_str E s) as [d|] eqn:Hs.
  - by t_ret.
  - by t_raise.
Qed.

Lemma float_div_int_triple x n :
  triple (float_div_int x n) (quiet P)
    (λ q, ∃ y, int_to_float n = Some y ∧ q = (x / y)%float) has_message.
Proof.
  unfold float_div_int. destruct (int_to_float n) as [y|] eqn:Hn.
  - t_ret. eauto.
  - t_raise. discriminate.
Qed.

Lemma check_ffmpeg_triple :
  P ["ffmpeg"; "-version"] → P ["ffprobe"; "-version"] →
  triple (_check_ffmpeg E) (quiet P) (λ _, True) has_message.
Proof.
  intros H1 H2. unfold _check_ffmpeg.
  t_try.
  - t_bind; [by apply subprocess_check_call_triple |].
    intros _ _. by apply subprocess_check_call_triple.
  - intros e _ _. t_raise. apply str_HTTPException_nonempty.
  - intros e He _. exact He.
Qed.

Lemma ffprobe_duration_triple path :
  P ["ffmpeg"; "-version"] → P ["ffprobe"; "-version"] → P (ffprobe_cmd path) →
  triple (ffprobe_duration E path) (quiet P) (probed E path) has_message.
Proof.
  intros H1 H2 H3. unfold ffprobe_duration.
  t_bind; [by apply check_ffmpeg_triple |]. intros _ _.
  t_bind; [by apply subprocess_check_output_triple |].
  intros out Hout. simpl in Hout.
  t_try.
  - t_weaken; [apply py_float_triple | | intros e He; exact He].
    intros d Hd. exists out. split; [exact Hout | exact Hd].
  - intros e _ _. t_raise. apply str_HTTPException_nonempty.
  - intros e He Hn. simpl in He. congruence.
Qed.

End Helpers.

Section SplitVideo.
Variable E : Env.
Variables (in_path out_dir : string) (parts : Z) (mode : string).


Lemma seg_time_of_triple P d :
  triple (seg_time_of d parts) (quiet P)
    (λ s, ∃ fp, int_to_float (Z.max parts 1) = Some fp ∧ s = target_seg_time d fp)
    has_message.
Proof.
  unfold seg_time_of. t_bind; [apply float_div_int_triple |].
  intros q (fp & Hfp & ->). t_ret. by exists fp.
Qed.

Lemma split_video_triple :
  triple (split_video E in_path out_dir parts mode)
    (quiet (split_video_cmd E in_path out_dir parts mode))
    (λ files, ∃ names, listed E out_dir names ∧ files = segment_files out_dir names)
    has_message.
Proof.
  assert (split_video_cmd E in_path out_dir parts mode ["ffmpeg"; "-version"]) as H1 by (by left).
  assert (split_video_cmd E in_path out_dir parts mode ["ffprobe"; "-version"]) as H2 by (right; by left).
  assert (split_video_cmd E in_path out_dir parts mode (ffprobe_cmd in_path)) as H3 by (right; right; by left).
  unfold split_video.
  t_bind; [by apply check_ffmpeg_triple |]. intros _ _.
  t_bind; [apply os_makedirs_triple |]. intros _ _.
  t_bind; [by apply ffprobe_duration_triple |]. intros d Hd.
  t_bind; [apply seg_time_of_triple |]. intros s (fp & Hfp & ->).
  t_bind.
  - t_try.
    + apply subprocess_check_call_triple. right; right; right. by exists d, fp.
    + intros e _ _. t_raise. apply str_HTTPException_nonempty.
    + intros e He _. exact He.
  - intros _ _. t_bind; [apply os_listdir_triple |]. intros names Hn.
    t_ret. by exists names.
Qed.

End SplitVideo.

Section Runner.
Variable E : Env.
Variables (video_id : string) (parts : Z) (mode : string).

#[local] Abbreviation inp := (job_in_path E video_id).
#[local] Abbreviation outd := (job_out_dir E video_id mode).
#[local] Abbreviation write := (stamped_write E video_id).
#[local] Abbreviation start := (started E video_id mode).
#[local] Abbreviation run := (split_run E video_id parts mode).
#[local] Abbreviation term := (terminal_record E video_id parts mode).
#[local] Abbreviation fin := (finished E video_id parts mode).

Lemma stamped_write_run mk w :
  with_JLOCK (let* now := utcnow_iso E in jobs_set video_id (mk now)) w
  = (inr tt, write mk w).
Proof. reflexivity. Qed.

Lemma run_split_job_eq w :
  _run_split_job E video_id parts mode w
  = (inr tt, write (λ _, term w) (run w).2).
Proof.
  unfold _run_split_job, try_except, terminal_record.
  unfold bind at 1. rewrite stamped_write_run.
  unfold bind at 1.
  change (split_video E _ _ parts mode _) with (run w).
  destruct (run w) as [[e|files] w2]; simpl.
  - destruct e; reflexivity.
  - reflexivity.
Qed.

Lemma split_run_quiet w :
  quiet (split_video_cmd E inp outd parts mode) (start w) (run w).2.
Proof. apply split_video_triple. Qed.

(** The registry, the task list and the events after one run. *)
Lemma finished_shape w :
  ∃ cmds,
    Forall (split_video_cmd E inp outd parts mode) cmds ∧
    JOBS (fin w) = <[video_id := term w]> (JOBS w) ∧
    background_tasks (fin w) = background_tasks w ∧
    trace (fin w) =
      (trace w ++
         JobWrite video_id (processing_record mode (VStamp (clock E (ticks w))))
         :: (Spawn <$> cmds) ++ [JobWrite video_id (term w)])%list ∧
    (ticks w < ticks (run w).2)%nat.
Proof.
  unfold finished. rewrite run_split_job_eq. simpl.
  destruct (split_run_quiet w) as (HJ & HB & HT & cmds & Htr & HP).
  exists cmds. split; [exact HP|].
  rewrite HJ, HB, Htr. simpl. split; [by rewrite insert_insert_eq|].
  split; [done|]. split; [by rewrite <- !app_assoc | simpl in HT; lia].
Qed.
End Runner.

(** * The job runner *)

Section RunnerClaims.
Variable E : Env.
Variables (video_id : string) (parts : Z) (mode : string).

#[local] Abbreviation outd := (job_out_dir E video_id mode).
#[local] Abbreviation start := (started E video_id mode).
#[local] Abbreviation run := (split_run E video_id parts mode).
#[local] Abbreviation term := (terminal_record E video_id parts mode).
#[local] Abbreviation fin := (finished E video_id parts mode).

Lemma run_tasks_never_raises ts w : (run_tasks E ts w).1 = inr tt.
Proof.
  revert w. induction ts as [|t ts IH]; intros w; simpl; [done|].
  unfold bind. rewrite run_split_job_eq. apply IH.
Qed.

Lemma terminal_status w :
  dict_get (term w) "status" = VStr "done" ∨ dict_get (term w) "status" = VStr "error".
Proof. unfold terminal_record. destruct (run w).1; [by right | by left]. Qed.

Lemma finished_lookup w : JOBS (fin w) !! video_id = Some (term w).
Proof.
  destruct (finished_shape E video_id parts mode w) as (cmds & _ & HJ & _).
  rewrite HJ. apply lookup_insert_eq.
Qed.

(** C2. Whatever the inputs and whatever the outside answers,
    [_run_split_job] returns normally: an exception of [split_video] is
    caught and an [error] record carrying its message is written, a normal
    return writes a [done] record; so the entry is never left in
    [processing], and the scheduler running the tasks never sees an
    exception. *)
Theorem run_split_job_catches_every_failure w :
  (_run_split_job E video_id parts mode w).1 = inr tt ∧
  JOBS (fin w) !! video_id = Some (term w) ∧
  match (run w).1 with
  | inl e =>
      term w = error_record e (VStamp (clock E (ticks (run w).2))) ∧
      dict_get (term w) "status" = VStr "error" ∧
      dict_get (term w) "error" = VStr (str_exn e)
  | inr files => dict_get (term w) "status" = VStr "done"
  end ∧
  dict_get (term w) "status" ≠ VStr "processing" ∧
  ∀ ts w0, (run_tasks E ts w0).1 = inr tt.
Proof.
  split; [by rewrite run_split_job_eq|].
  split; [apply finished_lookup|].
  split.
  - unfold terminal_record. destruct (run w).1 as [e|files]; [|done].
    by repeat split.
  - split; [|apply run_tasks_never_raises].
    destruct (terminal_status w) as [-> | ->]; discriminate.
Qed.

(** C1, as amended. When the split fails with [e], the terminal record is
    exactly status [error], the message [str(e)], which is not empty, and
    [finished_at]; it holds no [started_at], which only the [processing]
    record it replaces held; [finished_at] is read from the clock after
    that [started_at], so it is not earlier whenever the clock does not run
    backwards. *)
Theorem failing_split_ends_in_error_record w e :
  (run w).1 = inl e →
  ∃ n,
    let r := error_record e (VStamp (clock E n)) in
    JOBS (fin w) !! video_id = Some r ∧
    r !! "status" = Some (VStr "error") ∧
    r !! "error" = Some (VStr (str_exn e)) ∧ str_exn e ≠ "" ∧
    r !! "finished_at" = Some (VStamp (clock E n)) ∧
    r !! "started_at" = None ∧
    JOBS (start w) !! video_id
      = Some (processing_record mode (VStamp (clock E (ticks w)))) ∧
    (ticks w < n)%nat ∧
    ((∀ a b, (a ≤ b)%nat → clock E a ≤ clock E b) → clock E (ticks w) ≤ clock E n).
Proof.
  intros He. exists (ticks (run w).2). simpl.
  destruct (finished_shape E video_id parts mode w) as (cmds & _ & _ & _ & _ & Hlt).
  split.
  { rewrite finished_lookup. unfold terminal_record. by rewrite He. }
  repeat split; try done.
  - pose proof (split_video_triple E (job_in_path E video_id) outd parts mode (start w))
      as [_ Hres].
    change (split_video E _ _ parts mode (start w)) with (run w) in Hres.
    by rewrite He in Hres.
  - apply lookup_insert_eq.
  - intros Hmono. apply Hmono. lia.
Qed.


(** C9. Each transition stores a whole new record: the [processing] record
    has exactly the keys status, mode, started_at; the terminal record has
    exactly status, mode, parts, finished_at when [done] and exactly
    status, error, finished_at when [error]. Nothing of the record stored
    before survives: no queued_at in either, no started_at in the terminal
    record, no mode in an [error] record. *)
Theorem transitions_replace_the_whole_record w :
  ∃ cmds rp rt,
    trace (fin w)
      = (trace w ++ JobWrite video_id rp :: (Spawn <$> cmds) ++ [JobWrite video_id rt])%list ∧
    JOBS (start w) !! video_id = Some rp ∧
    JOBS (fin w) !! video_id = Some rt ∧
    dict_get rp "status" = VStr "processing" ∧
    dom rp = {[ "status"; "mode"; "started_at" ]} ∧
    rp !! "queued_at" = None ∧
    rt !! "queued_at" = None ∧ rt !! "started_at" = None ∧
    (dict_get rt "status" = VStr "done" ∧
       dom rt = {[ "status"; "mode"; "parts"; "finished_at" ]}
     ∨ dict_get rt "status" = VStr "error" ∧
       dom rt = {[ "status"; "error"; "finished_at" ]} ∧ rt !! "mode" = None).
Proof.
  destruct (finished_shape E video_id parts mode w) as (cmds & _ & _ & _ & Htr & _).
  exists cmds, (processing_record mode (VStamp (clock E (ticks w)))), (term w).
  split; [exact Htr|]. split; [apply lookup_insert_eq|].
  split; [apply finished_lookup|]. split; [done|].
  split; [unfold processing_record; rewrite !dom_insert_L, dom_singleton_L; set_solver|].
  split; [done|].
  unfold terminal_record. destruct (run w).1 as [e|files].
  - split; [done|]. split; [done|]. right. split; [done|]. split; [|done].
    unfold error_record. rewrite !dom_insert_L, dom_singleton_L. set_solver.
  - split; [done|]. split; [done|]. left. split; [done|].
    unfold done_record. rewrite !dom_insert_L, dom_singleton_L. set_solver.
Qed.
End RunnerClaims.

(** * Floats: the floor of the segment duration *)

Lemma SFcompare_antisym a b c :
  SFcompare a b = Some c → SFcompare b a = Some (CompOpp c).
Proof.
  destruct a as [sa|sa| |sa ma ea], b as [sb|sb| |sb mb eb]; simpl;
    try discriminate; intros [= <-];
    try (destruct sa; reflexivity); try (destruct sb; reflexivity);
    try (destruct sa, sb; reflexivity).
  assert (Pos.compare_cont Eq mb ma = CompOpp (Pos.compare_cont Eq ma mb)) as Hm
    by (by rewrite Pos.compare_cont_antisym).
  destruct sa, sb; try reflexivity; f_equal;
    rewrite (Z.compare_antisym ea eb), Hm;
    destruct (ea ?= eb); simpl; try reflexivity;
    destruct (Pos.compare_cont Eq ma mb); reflexivity.
Qed.

Lemma SFcompare_None a b :
  SFcompare a b = None → SFeqb a a = false ∨ SFeqb b b = false.
Proof.
  destruct a as [sa|sa| |sa ma ea], b as [sb|sb| |sb mb eb]; simpl;
    try discriminate; auto.
Qed.

(** On floats that are numbers, [x < y] fails only when [y <= x]. *)
Lemma float_not_lt_ge (x y : float) :
  is_nan x = false → is_nan y = false →
  PrimFloat.ltb x y = false → PrimFloat.leb y x = true.
Proof.
  unfold is_nan. rewrite !FloatAxioms.eqb_spec, ltb_spec, leb_spec.
  intros Hx%negb_false_iff Hy%negb_false_iff. unfold SFltb, SFleb.
  destruct (SFcompare (Prim2SF x) (Prim2SF y)) as [c|] eqn:Hc.
  - rewrite (SFcompare_antisym _ _ _ Hc). by destruct c.
  - apply SFcompare_None in Hc as [Hc | Hc]; congruence.
Qed.

(** [max(q, 0.1)] is [0.1] when [q < 0.1] and [q] otherwise, hence never
    below [0.1] when [q] is a number. *)
Lemma py_max_float_floor (q : float) :
  py_max_float q SEG_TIME_FLOOR
    = (if PrimFloat.ltb q SEG_TIME_FLOOR then SEG_TIME_FLOOR else q) ∧
  (is_nan q = false →
   PrimFloat.leb SEG_TIME_FLOOR (py_max_float q SEG_TIME_FLOOR) = true).
Proof.
  split; [reflexivity|]. intros Hq. unfold py_max_float.
  destruct (PrimFloat.ltb q SEG_TIME_FLOOR) eqn:Hlt; [reflexivity|].
  by apply float_not_lt_ge.
Qed.

(** * The transcoder helpers *)

Section SplitVideoClaims.
Variable E : Env.
Variables (in_path out_dir : string) (parts : Z) (mode : string).

Lemma ffmpeg_cmd_segment_time seg m :
  ∃ pre post,
    ffmpeg_cmd E in_path out_dir seg m
    = (pre ++ ["-segment_time"; str_of_float E seg] ++ post)%list.
Proof.
  unfold ffmpeg_cmd. destruct (bool_decide (m = "fast")).
  - by exists ["ffmpeg"; "-y"; "-i"; in_path; "-c"; "copy"; "-f"; "segment"],
      ["-reset_timestamps"; "1"; os_path_join out_dir "part_%02d.mp4"].
  - by exists ["ffmpeg"; "-y"; "-i"; in_path; "-vf"; "scale=1280:-2,unsharp=5:5:1.0";
               "-c:v"; "libx264"; "-preset"; "slower"; "-crf"; "20";
               "-c:a"; "aac"; "-b:a"; "128k"; "-f"; "segment"],
      ["-reset_timestamps"; "1"; os_path_join out_dir "part_%02d.mp4"].
Qed.

(** A transcoding call that returns did start the command. *)
Lemma checked_call_spawns cmd r w w' :
  try_except (subprocess_check_call E cmd) isinstance_CalledProcessError
    (λ e, raise (HTTPException 500 ("ffmpeg failed: " ++ str_exn e))) w
  = (inr r, w') →
  Spawn cmd ∈ trace w'.
Proof.
  unfold try_except, subprocess_check_call, spawn.
  destruct (existsb has_nul cmd); [discriminate|].
  unfold bind, tick, log, raise, ret. simpl.
  destruct (subprocess_exec E (ticks w) cmd) as [rc out|rc enc pb|errno msg]; simpl;
    [| |discriminate];
    (destruct (rc =? 0); simpl; [|discriminate];
     intros H; inversion H; subst; simpl; apply elem_of_app; right;
     apply list_elem_of_here).
Qed.

(** A successful [split_video] did run the transcoding command. *)
Lemma split_video_success_run w files w' :
  split_video E in_path out_dir parts mode w = (inr files, w') →
  ∃ d fp,
    probed E in_path d ∧ int_to_float (Z.max parts 1) = Some fp ∧
    Spawn (transcode_cmd E in_path out_dir mode d fp) ∈ trace w'.
Proof.
  unfold split_video.
  intros (_ & w1 & _ & H)%bind_inr. apply bind_inr in H as (_ & w2 & _ & H).
  apply bind_inr in H as (d & w3 & Hprobe & H).
  pose proof (ffprobe_duration_triple E (λ _, True) in_path I I I w2) as [_ Hd].
  rewrite Hprobe in Hd. simpl in Hd.
  apply bind_inr in H as (s & w4 & Hseg & H).
  pose proof (seg_time_of_triple parts (λ _, True) d w3) as [_ Hs].
  rewrite Hseg in Hs. simpl in Hs. destruct Hs as (fp & Hfp & ->).
  fold (transcode_cmd E in_path out_dir mode d fp) in H.
  set (cmd := transcode_cmd E in_path out_dir mode d fp) in *.
  apply bind_inr in H as (r & w5 & Hcall & H).
  pose proof (checked_call_spawns cmd r w4 w5 Hcall) as Hin.
  apply bind_inr in H as (names & w6 & Hls & H).
  pose proof (os_listdir_triple E (λ _, True) out_dir w5)
    as [(_ & _ & _ & cmds & Htr & _) _].
  rewrite Hls in Htr. simpl in Htr. injection H as _ <-.
  exists d, fp. split; [exact Hd|]. split; [exact Hfp|].
  rewrite Htr. apply elem_of_app. by left.
Qed.

Lemma split_video_success_transcodes w files :
  (split_video E in_path out_dir parts mode w).1 = inr files →
  ∃ d fp,
    probed E in_path d ∧ int_to_float (Z.max parts 1) = Some fp ∧
    Spawn (transcode_cmd E in_path out_dir mode d fp)
      ∈ trace (split_video E in_path out_dir parts mode w).2.
Proof.
  destruct (split_video E in_path out_dir parts mode w) as [r w'] eqn:Hrun.
  simpl. intros ->. by apply (split_video_success_run w files).
Qed.

(** C5. Every command [split_video] runs is a version check, the duration
    probe, or the transcoding command; the latter carries, after
    [-segment_time], the text of [max(d / max(parts, 1), 0.1)] for the
    duration [d] that was probed: [0.1] when the quotient is below it, the
    quotient otherwise, and so never less than [0.1] for a quotient that is
    a number. A successful run did run that command. For 40 seconds and 4
    parts the duration is 10. *)
Theorem segment_time_is_duration_over_parts_floored w :
  (∃ cmds,
     trace (split_video E in_path out_dir parts mode w).2
       = (trace w ++ (Spawn <$> cmds))%list ∧
     Forall (λ cmd,
         cmd = ["ffmpeg"; "-version"] ∨ cmd = ["ffprobe"; "-version"] ∨
         cmd = ffprobe_cmd in_path ∨
         ∃ d fp pre post,
           probed E in_path d ∧ int_to_float (Z.max parts 1) = Some fp ∧
           let q := (d / fp)%float in
           let seg := py_max_float q SEG_TIME_FLOOR in
           cmd = (pre ++ ["-segment_time"; str_of_float E seg] ++ post)%list ∧
           seg = (if PrimFloat.ltb q SEG_TIME_FLOOR then SEG_TIME_FLOOR else q) ∧
           (is_nan q = false → PrimFloat.leb SEG_TIME_FLOOR seg = true))
       cmds) ∧
  (∀ files,
     (split_video E in_path out_dir parts mode w).1 = inr files →
     ∃ d fp,
       probed E in_path d ∧ int_to_float (Z.max parts 1) = Some fp ∧
       Spawn (ffmpeg_cmd E in_path out_dir (py_max_float (d / fp) SEG_TIME_FLOOR)
                (effective_mode mode))
         ∈ trace (split_video E in_path out_dir parts mode w).2) ∧
  int_to_float (Z.max 4 1) = Some 4%float ∧
  py_max_float (40 / 4) SEG_TIME_FLOOR = 10%float.
Proof.
  split; [|split; [apply split_video_success_transcodes | split; reflexivity]].
  destruct (split_video_triple E in_path out_dir parts mode w)
    as [(_ & _ & _ & cmds & Htr & HP) _].
  exists cmds. split; [exact Htr|].
  eapply Forall_impl; [exact HP|]. intros cmd Hcmd. simpl.
  destruct Hcmd as [-> | [-> | [-> | (d & fp & Hd & Hfp & ->)]]]; auto.
  right; right; right.
  destruct (ffmpeg_cmd_segment_time (target_seg_time d fp) (effective_mode mode))
    as (pre & post & Hcmd).
  exists d, fp, pre, post. split; [exact Hd|]. split; [exact Hfp|].
  split; [exact Hcmd|]. apply py_max_float_floor.
Qed.

Lemma effective_mode_unrecognised :
  mode ≠ "fast" → mode ≠ "heavy" → effective_mode mode = "heavy".
Proof.
  intros Hf Hh. unfold effective_mode.
  by rewrite !bool_decide_eq_false_2.
Qed.

(** C6. With a mode that is neither ["fast"] nor ["heavy"], [split_video]
    does exactly what it does for ["heavy"]: same commands, same result,
    same final world. *)
Theorem unrecognised_mode_is_heavy w :
  mode ≠ "fast" → mode ≠ "heavy" →
  effective_mode mode = "heavy" ∧
  split_video E in_path out_dir parts mode w
    = split_video E in_path out_dir parts "heavy" w.
Proof.
  intros Hf Hh. pose proof (effective_mode_unrecognised Hf Hh) as Heff.
  split; [exact Heff|].
  unfold split_video. rewrite Heff. reflexivity.
Qed.
End SplitVideoClaims.

(** * The endpoints of the registry *)

Section Endpoints.
Variable E : Env.

Lemma asked_0 w : asked 0 w = w.
Proof. by destruct w. Qed.

Lemma current_user_world authorization w :
  (current_user E authorization w).2 = w.
Proof.
  unfold current_user, decode_bearer, bind.
  destruct (bool_decide _ || negb _); [done|].
  by destruct (jwt_decode E _).
Qed.

Lemma current_user_run authorization w user :
  (current_user E authorization w).1 = inr user →
  current_user E authorization w = (inr user, w).
Proof.
  intros H. pose proof (current_user_world authorization w) as Hw.
  destruct (current_user E authorization w) as [r w1]. simpl in *. congruence.
Qed.

(** [_authorize_video_access] asks the outside once or twice and changes
    nothing else. *)
Lemma authorize_world video_id user w :
  ∃ k, (_authorize_video_access E video_id user w).2 = asked k w.
Proof.
  unfold _authorize_video_access, read_meta, json_load_file, os_path_exists, bind, tick.
  simpl. destruct (fs_exists E (ticks w) _); simpl.
  - destruct (fs_load_json E (S (ticks w)) _) as [d| |]; simpl;
      try (by exists 2%nat).
    destruct (bool_decide (d = ∅)); simpl; [by exists 2%nat|].
    destruct (negb _ && negb _); by exists 2%nat.
  - by exists 1%nat.
Qed.

Lemma authorize_no_meta video_id user w :
  fs_exists E (ticks w) (meta_path E video_id) = false →
  (_authorize_video_access E video_id user w).1
    = inl (HTTPException 404 "Video not found").
Proof.
  intros Hex.
  unfold _authorize_video_access, read_meta, json_load_file, os_path_exists, bind, tick.
  simpl. unfold meta_path in Hex. by rewrite Hex.
Qed.

Lemma authorize_with_meta video_id user w meta :
  fs_exists E (ticks w) (meta_path E video_id) = true →
  fs_load_json E (S (ticks w)) (meta_path E video_id) = Loaded meta →
  meta ≠ ∅ →
  _authorize_video_access E video_id user w
  = (if negb (bool_decide (user_role user = VStr "admin"))
        && negb (bool_decide (dict_get meta "owner" = user))
     then inl (HTTPException 403 "Forbidden")
     else inr (os_path_join (DATA_DIR E) video_id, meta),
     asked 2 w).
Proof.
  intros Hex Hload Hne.
  unfold _authorize_video_access, read_meta, json_load_file, os_path_exists, bind, tick.
  simpl. unfold meta_path in *. rewrite Hex. simpl. rewrite Hload. simpl.
  rewrite bool_decide_eq_false_2 by done.
  by destruct (negb _ && negb _).
Qed.

(** C10. For an authenticated caller, [job_status] checks the video before
    it looks at the registry: without a metadata record it raises 404, and
    for a caller who is neither the owner nor an administrator it raises
    403, whatever the registry holds; it does not answer [unknown]. *)
Theorem job_status_checks_the_video_first video_id authorization w user :
  (current_user E authorization w).1 = inr user →
  (fs_exists E (ticks w) (meta_path E video_id) = false →
   (job_status E video_id authorization w).1
     = inl (HTTPException 404 "Video not found")) ∧
  (∀ meta,
     fs_exists E (ticks w) (meta_path E video_id) = true →
     fs_load_json E (S (ticks w)) (meta_path E video_id) = Loaded meta →
     meta ≠ ∅ →
     user_role user ≠ VStr "admin" → dict_get meta "owner" ≠ user →
     (job_status E video_id authorization w).1
       = inl (HTTPException 403 "Forbidden")).
Proof.
  intros Hu. apply current_user_run in Hu. split.
  - intros Hex. unfold job_status, bind. rewrite Hu.
    pose proof (authorize_no_meta video_id user w Hex) as Ha.
    destruct (_authorize_video_access E video_id user w) as [[e|r] w1];
      simpl in *; [by injection Ha as -> | discriminate].
  - intros meta Hex Hload Hne Hrole Hown. unfold job_status, bind. rewrite Hu.
    rewrite (authorize_with_meta video_id user w meta Hex Hload Hne).
    by rewrite !bool_decide_eq_false_2.
Qed.

(** The credential check and the access check do not look at the registry. *)
Lemma current_user_result authorization w w2 :
  (current_user E authorization w2).1 = (current_user E authorization w).1.
Proof.
  unfold current_user, decode_bearer, bind.
  destruct (bool_decide _ || negb _); [done|].
  by destruct (jwt_decode E _).
Qed.

Lemma authorize_result video_id user w w2 :
  ticks w2 = ticks w →
  (_authorize_video_access E video_id user w2).1
  = (_authorize_video_access E video_id user w).1.
Proof.
  intros Ht.
  unfold _authorize_video_access, read_meta, json_load_file, os_path_exists, bind, tick.
  simpl. rewrite Ht. destruct (fs_exists E (ticks w) _); simpl; [|done].
  destruct (fs_load_json E (S (ticks w)) _) as [d| |]; simpl; try done.
  destruct (bool_decide (d = ∅)); simpl; [done|].
  by destruct (negb _ && negb _).
Qed.

(** An exception of [job_status] is one of the two checks'. *)
Lemma job_status_raises video_id authorization w e :
  (job_status E video_id authorization w).1 = inl e →
  (current_user E authorization w).1 = inl e ∨
  ∃ user, (current_user E authorization w).1 = inr user ∧
          (_authorize_video_access E video_id user w).1 = inl e.
Proof.
  unfold job_status. unfold bind at 1.
  pose proof (current_user_world authorization w) as Hw.
  destruct (current_user E authorization w) as [[e'|user] w0]; simpl in Hw; subst w0.
  { simpl. intros [= ->]. by left. }
  unfold bind at 1.
  destruct (_authorize_video_access E video_id user w) as [[e'|r] w1] eqn:Ha.
  { simpl. intros [= ->]. right. exists user. by rewrite Ha. }
  unfold bind, with_JLOCK, jobs_get. simpl.
  destruct (JOBS w1 !! video_id) as [j|]; [|discriminate].
  by destruct (bool_decide (j = ∅)).
Qed.

(** C3, as amended. For an identifier with no record in the registry,
    [job_status] answers [{"status": "unknown"}] when the caller is
    authenticated, the video has a metadata record and the caller owns it
    or is an administrator; the registry is left as it was. Otherwise it
    raises, and what it raises is decided before the registry is looked at:
    401 for a header that is no bearer token or a token the decoder
    refuses, 404 for a video without metadata file or with an empty record,
    403 for a caller who is neither the owner nor an administrator, and the
    error of loading the metadata file when it is there but cannot be read
    or parsed. With any other registry the same exception is raised. *)
Theorem job_status_unknown_for_authorised_caller video_id authorization w :
  JOBS w !! video_id = None →
  let result := (job_status E video_id authorization w).1 in
  let p := meta_path E video_id in
  (∀ e, (current_user E authorization w).1 = inl e →
     result = inl e ∧
     (e = HTTPException 401 "Missing or invalid Authorization header" ∨
      e = HTTPException 401 "Invalid or expired token")) ∧
  (∀ user, (current_user E authorization w).1 = inr user →
     (fs_exists E (ticks w) p = false →
      result = inl (HTTPException 404 "Video not found")) ∧
     (fs_exists E (ticks w) p = true →
      match fs_load_json E (S (ticks w)) p with
      | LoadOSError errno strerror => result = inl (OSError errno strerror p)
      | LoadDecodeError msg => result = inl (ValueError msg)
      | Loaded meta =>
          (meta = ∅ → result = inl (HTTPException 404 "Video not found")) ∧
          (meta ≠ ∅ →
           (user_role user = VStr "admin" ∨ dict_get meta "owner" = user →
            job_status E video_id authorization w
            = (inr {[ "status" := VStr "unknown" ]}, asked 2 w)) ∧
           (user_role user ≠ VStr "admin" → dict_get meta "owner" ≠ user →
            result = inl (HTTPException 403 "Forbidden")))
      end)) ∧
  (∀ e, result = inl e →
     ∀ J, (job_status E video_id authorization (with_registry J w)).1 = inl e).
Proof.
  intros Hnone. cbv zeta. split; [|split].
  - intros e He. split.
    + unfold job_status, bind.
      destruct (current_user E authorization w) as [[e'|user] w0]; simpl in *;
        congruence.
    + revert He. unfold current_user, decode_bearer, bind.
      destruct (bool_decide _ || negb _); [simpl; intros [= <-]; by left|].
      destruct (jwt_decode E _); [discriminate|].
      simpl. intros [= <-]. by right.
  - intros user Hu. apply current_user_run in Hu. split.
    + intros Hex. unfold job_status, bind. rewrite Hu.
      pose proof (authorize_no_meta video_id user w Hex) as Ha.
      destruct (_authorize_video_access E video_id user w) as [[e|r] w1];
        simpl in *; [by injection Ha as -> | discriminate].
    + intros Hex.
      destruct (fs_load_json E (S (ticks w)) (meta_path E video_id))
        as [meta|errno strerror|msg] eqn:Hload.
      * split.
        { intros ->. unfold job_status, bind. rewrite Hu.
          unfold _authorize_video_access, read_meta, json_load_file, os_path_exists,
            bind, tick.
          simpl. unfold meta_path in *. rewrite Hex. simpl. by rewrite Hload. }
        intros Hne. split.
        { intros Hok. unfold job_status, bind. rewrite Hu.
          rewrite (authorize_with_meta video_id user w meta Hex Hload Hne).
          assert (negb (bool_decide (user_role user = VStr "admin"))
                  && negb (bool_decide (dict_get meta "owner" = user)) = false) as ->.
          { destruct Hok as [H | H]; rewrite (bool_decide_eq_true_2 _ H); simpl;
              [done | by rewrite andb_false_r]. }
          unfold with_JLOCK, jobs_get. simpl. by rewrite Hnone. }
        intros Hrole Hown. unfold job_status, bind. rewrite Hu.
        rewrite (authorize_with_meta video_id user w meta Hex Hload Hne).
        by rewrite !bool_decide_eq_false_2.
      * unfold job_status, bind. rewrite Hu.
        unfold _authorize_video_access, read_meta, json_load_file, os_path_exists,
          bind, tick.
        simpl. unfold meta_path in *. rewrite Hex. simpl. by rewrite Hload.
      * unfold job_status, bind. rewrite Hu.
        unfold _authorize_video_access, read_meta, json_load_file, os_path_exists,
          bind, tick.
        simpl. unfold meta_path in *. rewrite Hex. simpl. by rewrite Hload.
  - intros e He J. apply job_status_raises in He.
    unfold job_status. unfold bind at 1.
    pose proof (current_user_world authorization (with_registry J w)) as Hw.
    pose proof (current_user_result authorization w (with_registry J w)) as Hr.
    destruct (current_user E authorization (with_registry J w)) as [r w0].
    simpl in Hw, Hr. subst w0 r.
    destruct He as [He | (user & Hu & He)]; rewrite ?He, ?Hu; [done|].
    unfold bind at 1.
    pose proof (authorize_result video_id user w (with_registry J w) eq_refl) as Ha.
    rewrite He in Ha.
    destruct (_authorize_video_access E video_id user (with_registry J w))
      as [r w1]. simpl in Ha. by subst r.
Qed.

(** What an accepted [split_async] leaves behind. *)
Lemma split_async_accepted video_id parts mode authorization w response w' :
  split_async E video_id parts mode authorization w = (inr response, w') →
  ∃ n, (ticks w ≤ n)%nat ∧
    let record := queued_record mode (VStamp (clock E n)) in
    response = {[ "job" := VStr video_id; "status" := VStr "queued" ]} ∧
    w' = {| JOBS := <[video_id := record]> (JOBS w);
            background_tasks :=
              (background_tasks w ++
                 [{| task_video_id := video_id; task_parts := parts;
                     task_mode := mode |}])%list;
            trace := (trace w ++ [JobWrite video_id record])%list;
            ticks := S n |}.
Proof.
  unfold split_async. unfold bind at 1.
  pose proof (current_user_world authorization w) as Hw.
  destruct (current_user E authorization w) as [[e|user] w0]; [discriminate|].
  simpl in Hw. subst w0. unfold bind at 1.
  destruct (authorize_world video_id user w) as [k Hk].
  destruct (_authorize_video_access E video_id user w) as [[e|[vdir meta]] w1];
    [discriminate|].
  simpl in Hk. subst w1.
  unfold bind at 1. unfold os_path_exists at 1. unfold bind at 1, tick at 1. simpl.
  destruct (fs_exists E (k + ticks w) (os_path_join vdir "input.mp4")); simpl;
    [|discriminate].
  intros [= <- <-]. exists (S (k + ticks w)). split; [lia|]. done.
Qed.
End Endpoints.

(** * One submission, from the request to the terminal record *)

Lemma status_history_spawns video_id J cmds evs :
  status_history video_id J ((Spawn <$> cmds) ++ evs)
  = (replicate (length cmds) (polled_status J video_id)
       ++ status_history video_id J evs)%list.
Proof. induction cmds as [|c cmds IH]; csimpl; [done | by rewrite IH]. Qed.

Lemma foldl_apply_spawns J cmds : foldl apply_event J (Spawn <$> cmds) = J.
Proof. induction cmds as [|c cmds IH]; csimpl; [done | exact IH]. Qed.

Lemma lifecycle_sorted n t :
  t = VStr "done" ∨ t = VStr "error" →
  Sorted no_step_back
    (VStr "queued" :: replicate (S n) (VStr "processing") ++ [t]).
Proof.
  intros Ht.
  assert (no_step_back (VStr "processing") t) as Hpt
    by (destruct Ht as [-> | ->]; unfold no_step_back; simpl; lia).
  assert (Sorted no_step_back (replicate (S n) (VStr "processing") ++ [t])) as Hs.
  { induction n as [|n IH]; simpl.
    - repeat constructor. exact Hpt.
    - constructor; [exact IH|]. constructor. unfold no_step_back. simpl. lia. }
  constructor; [exact Hs|]. simpl. constructor. unfold no_step_back. simpl. lia.
Qed.

Section Submission.
Variable E : Env.
Variables (video_id : string) (parts : Z) (mode : string) (authorization : string).

(** C8. An accepted submission stores its [queued] record under the
    identifier whatever was stored there before: the registry is the old
    one with that single entry replaced, the other identifiers keep their
    records, and the number of records grows only if the identifier had
    none. *)
Theorem submission_overwrites_the_record w response w' :
  split_async E video_id parts mode authorization w = (inr response, w') →
  ∃ t,
    let record := queued_record mode (VStamp t) in
    JOBS w' = <[video_id := record]> (JOBS w) ∧
    JOBS w' !! video_id = Some record ∧
    (∀ other, other ≠ video_id → JOBS w' !! other = JOBS w !! other) ∧
    dom (JOBS w') = {[ video_id ]} ∪ dom (JOBS w) ∧
    size (JOBS w')
      = match JOBS w !! video_id with
        | Some _ => size (JOBS w)
        | None => S (size (JOBS w))
        end.
Proof.
  intros Hrun.
  destruct (split_async_accepted E _ _ _ _ _ _ _ Hrun) as (n & _ & _ & ->).
  exists (clock E n). simpl.
  split; [done|]. split; [apply lookup_insert_eq|].
  split; [intros other Hne; by apply lookup_insert_ne|].
  split; [apply dom_insert_L|].
  rewrite map_size_insert. by destruct (JOBS w !! video_id).
Qed.

(** C4. One accepted submission, served to the end, writes the registry
    entry three times, in this order: [queued], [processing], then one
    terminal record, [done] or [error]; nothing else writes the registry.
    The status a poll reads after each event is therefore [queued], then
    [processing], then the terminal status, and never steps back. *)
Theorem one_submission_three_ordered_writes w response w' :
  background_tasks w = [] →
  serve_split_async E video_id parts mode authorization w = (inr response, w') →
  ∃ rq rp rt cmds,
    let evs :=
      JobWrite video_id rq :: JobWrite video_id rp
        :: ((Spawn <$> cmds) ++ [JobWrite video_id rt])%list in
    trace w' = (trace w ++ evs)%list ∧
    JOBS w' = foldl apply_event (JOBS w) evs ∧
    JOBS w' !! video_id = Some rt ∧
    dict_get rq "status" = VStr "queued" ∧
    dict_get rp "status" = VStr "processing" ∧
    (dict_get rt "status" = VStr "done" ∨ dict_get rt "status" = VStr "error") ∧
    status_history video_id (JOBS w) evs
      = (VStr "queued" :: replicate (S (length cmds)) (VStr "processing")
           ++ [dict_get rt "status"])%list ∧
    Sorted no_step_back (status_history video_id (JOBS w) evs).
Proof.
  intros Hbg Hserve. unfold serve_split_async in Hserve.
  unfold bind at 1 in Hserve.
  destruct (split_async E video_id parts mode authorization w)
    as [[e|resp] w0] eqn:Hsub; [discriminate|].
  destruct (split_async_accepted E _ _ _ _ _ _ _ Hsub) as (n & _ & _ & ->).
  rewrite Hbg in Hserve. unfold bind at 1 in Hserve.
  unfold run_background_tasks in Hserve. simpl in Hserve.
  unfold bind at 1 in Hserve.
  set (w1 := {| JOBS := _; background_tasks := []; trace := _; ticks := S n |})
    in Hserve.
  assert (_run_split_job E video_id parts mode w1
          = (inr tt, finished E video_id parts mode w1)) as Hjob.
  { unfold finished. by rewrite (run_split_job_eq E video_id parts mode w1). }
  rewrite Hjob in Hserve. simpl in Hserve. injection Hserve as <- <-.
  destruct (finished_shape E video_id parts mode w1) as (cmds & _ & HJ & _ & Htr & _).
  pose proof (terminal_status E video_id parts mode w1) as Hterm.
  set (rq := queued_record mode (VStamp (clock E n))) in *.
  set (rp := processing_record mode (VStamp (clock E (ticks w1)))) in *.
  set (rt := terminal_record E video_id parts mode w1) in *.
  exists rq, rp, rt, cmds.
  assert (status_history video_id (JOBS w)
            (JobWrite video_id rq :: JobWrite video_id rp
               :: ((Spawn <$> cmds) ++ [JobWrite video_id rt])%list)
          = (VStr "queued" :: replicate (S (length cmds)) (VStr "processing")
               ++ [dict_get rt "status"])%list) as Hhist.
  { simpl. rewrite status_history_spawns. simpl.
    unfold polled_status. rewrite !lookup_insert_eq. simpl.
    reflexivity. }
  cbv zeta. rewrite Hhist.
  split; [rewrite Htr; subst w1; simpl; by rewrite <- app_assoc|].
  split.
  { rewrite HJ. subst w1. simpl. rewrite foldl_app, foldl_apply_spawns. simpl.
    by rewrite !insert_insert_eq. }
  split; [rewrite HJ; apply lookup_insert_eq|].
  split; [done|]. split; [done|]. split; [exact Hterm|].
  split; [reflexivity|].
  apply lifecycle_sorted.
  destruct Hterm as [-> | ->]; auto.
Qed.
End Submission.

(** * The properties on the sample environments *)


(** C1, as the specification words it, fails: without [ffmpeg] the job for
    [v2] fails, and the record it ends with holds no [started_at]. *)
Lemma error_record_lacks_started_at :
  (split_run env_tool_missing "v2" 4 "fast" initial_world).1 = inl not_found_on_path ∧
  JOBS (finished env_tool_missing "v2" 4 "fast" initial_world) !! "v2"
    = Some (error_record not_found_on_path (VStamp 1002)) ∧
  ¬ error_record_as_specified env_tool_missing "v2" 4 "fast" initial_world.
Proof.
  split; [by vm_compute|]. split; [by vm_compute|].
  intros (r & msg & s & f & Hr & _ & _ & _ & Hs & _).
  vm_compute in Hr. injection Hr as <-. vm_compute in Hs. discriminate.
Qed.

(** C1, as amended, on the run without [ffmpeg]. *)
Lemma failing_split_ends_in_error_record_witness :
  ∃ n,
    JOBS (finished env_tool_missing "v2" 4 "fast" initial_world) !! "v2"
      = Some (error_record not_found_on_path (VStamp (clock env_tool_missing n))) ∧
    str_exn not_found_on_path ≠ "" ∧
    error_record not_found_on_path (VStamp (clock env_tool_missing n)) !! "started_at"
      = None.
Proof.
  destruct (failing_split_ends_in_error_record env_tool_missing "v2" 4 "fast"
              initial_world not_found_on_path) as (n & H1 & _ & _ & H2 & _ & H3 & _).
  - vm_compute. reflexivity.
  - exists n. split; [exact H1|]. split; [exact H2 | exact H3].
Defined.

(** The three failures the specification names, each ending in an [error]
    record and a normal return of the runner. *)
Example three_failure_modes_are_recorded :
  (split_run env_tool_missing "v2" 4 "fast" initial_world).1 = inl not_found_on_path ∧
  (split_run env_no_duration "v2" 4 "fast" initial_world).1
    = inl (HTTPException 400 "Could not determine video duration") ∧
  (∃ msg, (split_run env_transcode_fails "v2" 4 "fast" initial_world).1
          = inl (HTTPException 500 ("ffmpeg failed: " ++ msg))) ∧
  Forall (λ E,
      (_run_split_job E "v2" 4 "fast" initial_world).1 = inr tt ∧
      polled_status (JOBS (finished E "v2" 4 "fast" initial_world)) "v2" = VStr "error")
    [env_tool_missing; env_no_duration; env_transcode_fails].
Proof.
  split; [by vm_compute|]. split; [by vm_compute|].
  split; [eexists; by vm_compute|].
  repeat constructor; by vm_compute.
Qed.

(** C3, as the specification words it, fails: for a video that does not
    exist, queried by an authenticated caller who never submitted a job for
    it, [job_status] raises 404 instead of answering [unknown]. *)
Lemma job_status_raises_for_unknown_video :
  JOBS initial_world !! "v3" = None ∧
  (job_status env_no_video "v3" "Bearer t-user" initial_world).1
    = inl (HTTPException 404 "Video not found") ∧
  ¬ unknown_as_specified env_no_video "v3" "Bearer t-user" initial_world.
Proof.
  split; [done|]. split; [by vm_compute|].
  intros H. specialize (H eq_refl). vm_compute in H. discriminate.
Qed.


Lemma sample_meta_not_empty : sample_meta ≠ ∅.
Proof. intros H. apply (f_equal (λ m : dict, m !! "owner")) in H. discriminate. Qed.

(** C3, as amended, before any submission: the owner of [v1] reads
    [unknown]; a token the decoder refuses gets 401 and a stranger 403, with
    any registry. *)
Lemma job_status_unknown_for_authorised_caller_witness :
  job_status env_40s "v1" "Bearer t-user" initial_world
    = (inr {[ "status" := VStr "unknown" ]}, asked 2 initial_world) ∧
  (∀ J, (job_status env_40s "v1" "Bearer t-nobody" (with_registry J initial_world)).1
        = inl (HTTPException 401 "Invalid or expired token")) ∧
  (∀ J, (job_status env_40s "v1" "Bearer t-guest" (with_registry J initial_world)).1
        = inl (HTTPException 403 "Forbidden")).
Proof.
  split; [|split].
  - destruct (job_status_unknown_for_authorised_caller env_40s "v1" "Bearer t-user"
                initial_world eq_refl) as (_ & H & _).
    destruct (H (VStr "user") eq_refl) as [_ Hmeta].
    apply (Hmeta eq_refl); [exact sample_meta_not_empty | right; reflexivity].
  - destruct (job_status_unknown_for_authorised_caller env_40s "v1" "Bearer t-nobody"
                initial_world eq_refl) as (_ & _ & H).
    apply H. vm_compute. reflexivity.
  - destruct (job_status_unknown_for_authorised_caller env_40s "v1" "Bearer t-guest"
                initial_world eq_refl) as (_ & _ & H).
    apply H. vm_compute. reflexivity.
Defined.

(** C10 on a missing video and on a caller who is not the owner. *)
Lemma job_status_checks_the_video_first_witness :
  (job_status env_no_video "v3" "Bearer t-user" initial_world).1
    = inl (HTTPException 404 "Video not found") ∧
  (job_status env_40s "v1" "Bearer t-guest" initial_world).1
    = inl (HTTPException 403 "Forbidden").
Proof.
  split.
  - apply (job_status_checks_the_video_first env_no_video "v3" "Bearer t-user"
             initial_world (VStr "user")).
    + vm_compute. reflexivity.
    + reflexivity.
  - apply (job_status_checks_the_video_first env_40s "v1" "Bearer t-guest"
             initial_world (VStr "guest")) with (meta := sample_meta).
    + vm_compute. reflexivity.
    + reflexivity.
    + reflexivity.
    + exact sample_meta_not_empty.
    + vm_compute. discriminate.
    + vm_compute. discriminate.
Defined.



(** The scenario of the specification: [v1], 4 parts, mode [fast], 40 seconds. *)
Example scenario_v1 :
  let w := (serve_split_async env_40s "v1" 4 "fast" "Bearer t-user" initial_world).2 in
  JOBS w !! "v1" = Some (done_record "fast" sample_segments (VStamp 1013)) ∧
  dict_get (done_record "fast" sample_segments (VStamp 1013)) "parts" = VInt 4 ∧
  Spawn ["ffmpeg"; "-y"; "-i"; "data/v1/input.mp4"; "-c"; "copy"; "-f"; "segment";
         "-segment_time"; "10.0"; "-reset_timestamps"; "1";
         "data/v1/segments_fast/part_%02d.mp4"] ∈ trace w.
Proof.
  split; [by vm_compute|]. split; [by vm_compute|].
  vm_compute. repeat (first [apply list_elem_of_here | apply list_elem_of_further]).
Qed.

(** C6 for the mode [turbo]. *)
Lemma unrecognised_mode_is_heavy_witness :
  split_video env_40s "in.mp4" "out" 4 "turbo" initial_world
  = split_video env_40s "in.mp4" "out" 4 "heavy" initial_world.
Proof.
  apply (unrecognised_mode_is_heavy env_40s "in.mp4" "out" 4 "turbo" initial_world).
  - vm_compute. discriminate.
  - vm_compute. discriminate.
Defined.

(** C8 on a second submission for [v1], made when the first job is done:
    the [done] record is replaced by the [queued] one, the unrelated record
    of [v0] stays, and the registry still holds two records. *)
Lemma submission_overwrites_the_record_witness :
  let w := world_with_finished_job in
  let w' := (split_async env_40s "v1" 8 "heavy" "Bearer t-user" w).2 in
  JOBS w !! "v1" = Some (done_record "fast" sample_segments (VStamp 1013)) ∧
  (∃ t, JOBS w' !! "v1" = Some (queued_record "heavy" (VStamp t))) ∧
  JOBS w' !! "v0" = JOBS w !! "v0" ∧ JOBS w !! "v0" ≠ None ∧
  size (JOBS w') = size (JOBS w).
Proof.
  cbv zeta.
  destruct (submission_overwrites_the_record env_40s "v1" 8 "heavy" "Bearer t-user"
              world_with_finished_job
              {[ "job" := VStr "v1"; "status" := VStr "queued" ]}
              (split_async env_40s "v1" 8 "heavy" "Bearer t-user"
                 world_with_finished_job).2)
    as (t & _ & Hnew & Hother & _ & Hsize).
  - vm_compute. reflexivity.
  - split; [vm_compute; reflexivity|]. split; [by exists t|].
    split; [by apply Hother|]. split; [vm_compute; discriminate|].
    rewrite Hsize. vm_compute. reflexivity.
Defined.

(** C4 on the submission for [v1]. *)
Lemma one_submission_three_ordered_writes_witness :
  ∃ rq rp rt cmds,
    trace (serve_split_async env_40s "v1" 4 "fast" "Bearer t-user" initial_world).2
      = JobWrite "v1" rq :: JobWrite "v1" rp
          :: ((Spawn <$> cmds) ++ [JobWrite "v1" rt])%list ∧
    dict_get rq "status" = VStr "queued" ∧
    dict_get rp "status" = VStr "processing" ∧
    (dict_get rt "status" = VStr "done" ∨ dict_get rt "status" = VStr "error").
Proof.
  destruct (one_submission_three_ordered_writes env_40s "v1" 4 "fast" "Bearer t-user"
              initial_world
              {[ "job" := VStr "v1"; "status" := VStr "queued" ]}
              (serve_split_async env_40s "v1" 4 "fast" "Bearer t-user" initial_world).2)
    as (rq & rp & rt & cmds & H1 & _ & _ & H2 & H3 & H4 & _).
  - reflexivity.
  - vm_compute. reflexivity.
  - exists rq, rp, rt, cmds. split; [exact H1|]. split; [exact H2|].
    split; [exact H3 | exact H4].
Defined.

(** * Further properties of the endpoints and helpers *)

Section MoreEndpoints.
Variable E : Env.

(** ** [decode_bearer] *)

Lemma after_first_space_Bearer token :
  after_first_space ("Bearer " ++ token) = Some token.
Proof. reflexivity. Qed.

Lemma startswith_Bearer token : startswith ("Bearer " ++ token) "Bearer " = true.
Proof. by destruct token. Qed.

Lemma decode_bearer_token token w :
  decode_bearer E ("Bearer " ++ token) w
  = (match jwt_decode E token with
     | Some claims => inr claims
     | None => inl (HTTPException 401 "Invalid or expired token")
     end, w).
Proof.
  unfold decode_bearer. rewrite startswith_Bearer, after_first_space_Bearer.
  simpl. by destruct (jwt_decode E token).
Qed.

Lemma current_user_token token claims w :
  jwt_decode E token = Some claims →
  current_user E ("Bearer " ++ token) w = (inr (dict_get claims "sub"), w).
Proof.
  intros Hd. unfold current_user, bind. by rewrite decode_bearer_token, Hd.
Qed.

(** X1. A header that does not start with [Bearer ] (the empty header
    included) is refused with 401 before the decoder is consulted, and for a
    header [Bearer <token>] the decoder is given exactly [<token>], whatever
    it contains: its claims are returned, and its refusal becomes 401. The
    world is never changed. *)
Theorem decode_bearer_scheme authorization token w :
  (startswith authorization "Bearer " = false →
   decode_bearer E authorization w
   = (inl (HTTPException 401 "Missing or invalid Authorization header"), w)) ∧
  decode_bearer E ("Bearer " ++ token) w
  = (match jwt_decode E token with
     | Some claims => inr claims
     | None => inl (HTTPException 401 "Invalid or expired token")
     end, w).
Proof.
  split.
  - intros Hs. unfold decode_bearer. rewrite Hs. simpl.
    by rewrite orb_true_r.
  - apply decode_bearer_token.
Qed.

(** ** [_authorize_video_access] *)

(** Only the account [admin] of the hard-coded table has the role [admin]. *)
Lemma user_role_admin user : user_role user = VStr "admin" ↔ user = VStr "admin".
Proof.
  split; [|by intros ->].
  destruct user as [|name|n|t]; try discriminate. unfold user_role, USERS.
  destruct (decide (name = "admin")) as [-> | Hna]; [done|].
  rewrite lookup_insert_ne by done.
  destruct (decide (name = "user")) as [-> | Hnu]; [discriminate|].
  rewrite lookup_singleton_ne by done. discriminate.
Qed.

Lemma authorize_empty_meta video_id user w :
  fs_exists E (ticks w) (meta_path E video_id) = true →
  fs_load_json E (S (ticks w)) (meta_path E video_id) = Loaded ∅ →
  (_authorize_video_access E video_id user w).1
  = inl (HTTPException 404 "Video not found").
Proof.
  intros Hex Hload.
  unfold _authorize_video_access, read_meta, json_load_file, os_path_exists, bind, tick.
  simpl. unfold meta_path in *. rewrite Hex. simpl. by rewrite Hload.
Qed.

(** X2. When the metadata record of a video can be read, access is granted
    exactly when the record is not empty and the caller is the account
    [admin] or the value stored under [owner] (absent: [None]) equals the
    caller; an empty record is answered 404 and any other caller 403. The
    role is looked up in the hard-coded table: no other account is an
    administrator. *)
Theorem access_iff_admin_or_owner video_id user w meta :
  fs_exists E (ticks w) (meta_path E video_id) = true →
  fs_load_json E (S (ticks w)) (meta_path E video_id) = Loaded meta →
  let result := (_authorize_video_access E video_id user w).1 in
  (result = inr (os_path_join (DATA_DIR E) video_id, meta)
   ↔ meta ≠ ∅ ∧ (user = VStr "admin" ∨ dict_get meta "owner" = user)) ∧
  (meta = ∅ → result = inl (HTTPException 404 "Video not found")) ∧
  (meta ≠ ∅ → user ≠ VStr "admin" → dict_get meta "owner" ≠ user →
   result = inl (HTTPException 403 "Forbidden")).
Proof.
  intros Hex Hload. cbv zeta.
  assert (meta = ∅ →
          (_authorize_video_access E video_id user w).1
          = inl (HTTPException 404 "Video not found")) as Hempty.
  { intros ->. by apply authorize_empty_meta. }
  assert (meta ≠ ∅ →
          (_authorize_video_access E video_id user w).1
          = if negb (bool_decide (user_role user = VStr "admin"))
               && negb (bool_decide (dict_get meta "owner" = user))
            then inl (HTTPException 403 "Forbidden")
            else inr (os_path_join (DATA_DIR E) video_id, meta)) as Hfull.
  { intros Hne. by rewrite (authorize_with_meta E video_id user w meta Hex Hload Hne). }
  split; [|split].
  - split.
    + intros Hok. destruct (decide (meta = ∅)) as [Hm | Hm].
      { rewrite (Hempty Hm) in Hok. discriminate. }
      split; [exact Hm|]. rewrite (Hfull Hm) in Hok.
      destruct (decide (user_role user = VStr "admin")) as [Hr | Hr].
      { left. by apply user_role_admin. }
      destruct (decide (dict_get meta "owner" = user)) as [Ho | Ho]; [by right|].
      rewrite !bool_decide_eq_false_2 in Hok by done. discriminate.
    + intros [Hm [-> | Ho]]; rewrite (Hfull Hm).
      * done.
      * rewrite (bool_decide_eq_true_2 _ Ho). simpl. by rewrite andb_false_r.
  - exact Hempty.
  - intros Hm Hna Ho. rewrite (Hfull Hm).
    rewrite !bool_decide_eq_false_2; [done | done |].
    intros Hr. by apply Hna, user_role_admin.
Qed.

(** ** [job_status] and [split_async] *)

Lemma job_status_world video_id authorization w :
  ∃ k, (job_status E video_id authorization w).2 = asked k w.
Proof.
  unfold job_status. unfold bind at 1.
  pose proof (current_user_world E authorization w) as Hw.
  destruct (current_user E authorization w) as [[e|user] w0]; simpl in Hw; subst w0.
  { exists 0%nat. by rewrite asked_0. }
  unfold bind at 1. destruct (authorize_world E video_id user w) as [k Hk].
  destruct (_authorize_video_access E video_id user w) as [[e|r] w1];
    simpl in Hk; subst w1; [by exists k|].
  unfold bind, with_JLOCK, jobs_get. simpl.
  destruct (JOBS w !! video_id) as [j|]; [|by exists k].
  destruct (bool_decide (j = ∅)); by exists k.
Qed.

(** X3. [job_status] only reads: whatever it answers or raises, the
    registry, the queue of background tasks and the trace of events are as
    they were. *)
Theorem job_status_only_reads video_id authorization w :
  let w' := (job_status E video_id authorization w).2 in
  JOBS w' = JOBS w ∧ background_tasks w' = background_tasks w ∧ trace w' = trace w.
Proof.
  cbv zeta. destruct (job_status_world video_id authorization w) as [k ->]. done.
Qed.

(** X4. For an authorised caller, [job_status] answers the stored record
    itself, field for field, when the registry holds a (non-empty) record
    for the identifier. *)
Theorem job_status_returns_the_stored_record video_id authorization w user meta record :
  JOBS w !! video_id = Some record → record ≠ ∅ →
  (current_user E authorization w).1 = inr user →
  fs_exists E (ticks w) (meta_path E video_id) = true →
  fs_load_json E (S (ticks w)) (meta_path E video_id) = Loaded meta →
  meta ≠ ∅ →
  user = VStr "admin" ∨ dict_get meta "owner" = user →
  (job_status E video_id authorization w).1 = inr record.
Proof.
  intros Hrec Hne Hu Hex Hload Hm Hok. apply current_user_run in Hu.
  unfold job_status, bind. rewrite Hu.
  rewrite (authorize_with_meta E video_id user w meta Hex Hload Hm).
  assert (negb (bool_decide (user_role user = VStr "admin"))
          && negb (bool_decide (dict_get meta "owner" = user)) = false) as ->.
  { destruct Hok as [-> | H]; [done|].
    rewrite (bool_decide_eq_true_2 _ H). simpl. by rewrite andb_false_r. }
  unfold with_JLOCK, jobs_get. simpl. rewrite Hrec.
  by rewrite bool_decide_eq_false_2.
Qed.

Lemma bind_inl {A B} (m : M A) (k : A → M B) w e w' :
  bind m k w = (inl e, w') →
  m w = (inl e, w') ∨ ∃ a w1, m w = (inr a, w1) ∧ k a w1 = (inl e, w').
Proof.
  unfold bind. destruct (m w) as [[e0|a] w1]; intros H;
    [injection H as -> ->; by left|].
  right. by exists a, w1.
Qed.

Lemma split_async_refused video_id parts mode authorization w e w' :
  split_async E video_id parts mode authorization w = (inl e, w') →
  ∃ k, w' = asked k w.
Proof.
  unfold split_async. intros [H | (user & w1 & Hu & H)]%bind_inl.
  { pose proof (current_user_world E authorization w) as Hw. rewrite H in Hw.
    simpl in Hw. subst w'. exists 0%nat. by rewrite asked_0. }
  pose proof (current_user_world E authorization w) as Hw. rewrite Hu in Hw.
  simpl in Hw. subst w1.
  destruct (authorize_world E video_id user w) as [k Hk].
  apply bind_inl in H as [H | ([vdir meta] & w2 & Ha & H)].
  { rewrite H in Hk. simpl in Hk. by exists k. }
  rewrite Ha in Hk. simpl in Hk. subst w2.
  apply bind_inl in H as [H | (present & w3 & Hp & H)].
  { unfold os_path_exists, bind, tick in H. simpl in H. discriminate. }
  unfold os_path_exists, bind, tick in Hp. simpl in Hp. injection Hp as <- <-.
  simpl in H.
  destruct (fs_exists E (k + ticks w) (os_path_join vdir "input.mp4")); simpl in H.
  - unfold with_JLOCK, utcnow_iso, jobs_set, add_task, bind, tick, log, ret in H.
    simpl in H. discriminate.
  - injection H as _ <-. by exists (S k).
Qed.

(** X5. A refused [split_async] (bad credential, no video, not the owner,
    no input file) leaves no mark: no record is written, no task is queued
    and no event is logged. *)
Theorem refused_submission_leaves_no_mark video_id parts mode authorization w e :
  (split_async E video_id parts mode authorization w).1 = inl e →
  let w' := (split_async E video_id parts mode authorization w).2 in
  JOBS w' = JOBS w ∧ background_tasks w' = background_tasks w ∧ trace w' = trace w.
Proof.
  cbv zeta.
  destruct (split_async E video_id parts mode authorization w) as [r w'] eqn:Hrun.
  simpl. intros ->. by destruct (split_async_refused _ _ _ _ _ _ _ Hrun) as [k ->].
Qed.

(** X6. The endpoints identify the caller by the [sub] claim alone: two
    tokens that decode to the same [sub] get the same answer from
    [job_status] and from [split_async], whatever their other claims (the
    [role] claim included) say. *)
Theorem only_the_sub_claim_matters video_id parts mode token1 token2 claims1 claims2 w :
  jwt_decode E token1 = Some claims1 →
  jwt_decode E token2 = Some claims2 →
  dict_get claims1 "sub" = dict_get claims2 "sub" →
  job_status E video_id ("Bearer " ++ token1) w
  = job_status E video_id ("Bearer " ++ token2) w ∧
  split_async E video_id parts mode ("Bearer " ++ token1) w
  = split_async E video_id parts mode ("Bearer " ++ token2) w.
Proof.
  intros H1 H2 Hsub.
  pose proof (current_user_token token1 claims1 w H1) as Hu1.
  pose proof (current_user_token token2 claims2 w H2) as Hu2.
  rewrite <- Hsub in Hu2.
  split.
  - unfold job_status, bind. by rewrite Hu1, Hu2.
  - unfold split_async, bind. by rewrite Hu1, Hu2.
Qed.
End MoreEndpoints.

(** * Further properties of the transcoder helpers and the runner *)

Section MoreHelpers.
Variable E : Env.

(** X7. [_check_ffmpeg] returns normally exactly when [ffmpeg -version] and
    then [ffprobe -version] both run and exit with status 0 ([ffprobe] is
    only tried after [ffmpeg] passed); every other outcome, a missing
    executable as well as a non-zero exit, becomes the one exception
    500 "ffmpeg/ffprobe not found on PATH". *)
Theorem check_ffmpeg_outcomes w :
  (_check_ffmpeg E w).1
  = if exited_zero (subprocess_exec E (ticks w) ["ffmpeg"; "-version"])
       && exited_zero (subprocess_exec E (S (ticks w)) ["ffprobe"; "-version"])
    then inr tt
    else inl (HTTPException 500 "ffmpeg/ffprobe not found on PATH").
Proof.
  unfold _check_ffmpeg, try_except, subprocess_check_call, spawn.
  change (existsb has_nul ["ffmpeg"; "-version"]) with false.
  change (existsb has_nul ["ffprobe"; "-version"]) with false.
  unfold bind, tick, log, raise, ret. simpl.
  destruct (subprocess_exec E (ticks w) ["ffmpeg"; "-version"])
    as [rc out|rc enc pb|errno msg]; simpl; [| |done];
    (destruct (rc =? 0); simpl; [|done];
     destruct (subprocess_exec E (S (ticks w)) ["ffprobe"; "-version"])
       as [rc' out'|rc' enc' pb'|errno msg]; simpl; [| |done];
     by destruct (rc' =? 0)).
Qed.

(** ** Which exceptions [split_video] raises *)

#[local] Abbreviation any_cmd := (λ _ : list string, True).
















(** ** Segment counts below one *)

(** X9. A segment count of one, zero or less is one segment: [split_video]
    does for every [parts <= 1] exactly what it does for [parts = 1], and so
    does the job runner. *)
Theorem parts_below_one_is_one in_path out_dir video_id parts mode w :
  parts ≤ 1 →
  split_video E in_path out_dir parts mode w = split_video E in_path out_dir 1 mode w ∧
  _run_split_job E video_id parts mode w = _run_split_job E video_id 1 mode w.
Proof.
  intros Hp.
  assert (∀ i o, split_video E i o parts mode = split_video E i o 1 mode) as Heq.
  { intros i o. unfold split_video, seg_time_of. by rewrite (Z.max_r parts 1 Hp). }
  split; [by rewrite Heq|].
  unfold _run_split_job. by rewrite Heq.
Qed.

(** ** Jobs and the rest of the registry *)

(** X10. A run of the job runner touches one entry of the registry: the
    records of all other identifiers, and the queue of background tasks,
    are what they were, whether the split succeeds or fails. *)
Theorem run_leaves_other_jobs_alone video_id parts mode w :
  let w' := (_run_split_job E video_id parts mode w).2 in
  (∀ other, other ≠ video_id → JOBS w' !! other = JOBS w !! other) ∧
  dom (JOBS w') = {[ video_id ]} ∪ dom (JOBS w) ∧
  background_tasks w' = background_tasks w.
Proof.
  cbv zeta. fold (finished E video_id parts mode w).
  destruct (finished_shape E video_id parts mode w) as (cmds & _ & HJ & HB & _).
  rewrite HJ. split; [|split].
  - intros other Hne. by apply lookup_insert_ne.
  - apply dom_insert_L.
  - exact HB.
Qed.

Lemma run_settles video_id parts mode w other :
  other = video_id ∨ settled (JOBS w) other →
  settled (JOBS (finished E video_id parts mode w)) other.
Proof.
  destruct (finished_shape E video_id parts mode w) as (cmds & _ & HJ & _).
  rewrite HJ. unfold settled, polled_status.
  destruct (decide (other = video_id)) as [-> | Hne].
  - intros _. rewrite lookup_insert_eq. simpl. apply terminal_status.
  - intros [? | H]; [done|]. by rewrite lookup_insert_ne.
Qed.

Lemma run_tasks_settles ts w :
  let w' := (run_tasks E ts w).2 in
  background_tasks w' = background_tasks w ∧
  ∀ other, other ∈ (task_video_id <$> ts) ∨ settled (JOBS w) other →
           settled (JOBS w') other.
Proof.
  cbv zeta. revert w. induction ts as [|t ts IH]; intros w.
  - split; [done|]. intros other [H | H]; [|done]. by apply elem_of_nil in H.
  - simpl. unfold bind.
    assert (_run_split_job E (task_video_id t) (task_parts t) (task_mode t) w
            = (inr tt, finished E (task_video_id t) (task_parts t) (task_mode t) w))
      as ->.
    { unfold finished. by rewrite run_split_job_eq. }
    destruct (IH (finished E (task_video_id t) (task_parts t) (task_mode t) w))
      as [HB Hs].
    split.
    + rewrite HB.
      by destruct (finished_shape E (task_video_id t) (task_parts t) (task_mode t) w)
        as (cmds & _ & _ & -> & _).
    + intros other Ho. apply Hs.
      destruct Ho as [[-> | Hin]%elem_of_cons | Hset].
      * right. apply run_settles. by left.
      * by left.
      * right. apply run_settles. by right.
Qed.

(** X11. Running the queued background tasks, one after the other, returns
    normally, empties the queue, and leaves every queued identifier with a
    [done] or an [error] record; a later task for another identifier does
    not undo it, and identifiers that were settled before stay settled. *)
Theorem background_tasks_all_settle w :
  let run := run_background_tasks E w in
  run.1 = inr tt ∧
  background_tasks run.2 = [] ∧
  ∀ video_id,
    video_id ∈ (task_video_id <$> background_tasks w) ∨ settled (JOBS w) video_id →
    settled (JOBS run.2) video_id.
Proof.
  cbv zeta. unfold run_background_tasks.
  split; [apply run_tasks_never_raises|].
  pose proof (run_tasks_settles (background_tasks w)
    {| JOBS := JOBS w; background_tasks := []; trace := trace w; ticks := ticks w |})
    as [HB Hs].
  split; [exact HB | exact Hs].
Qed.
End MoreHelpers.

(** * The synchronous split and the file endpoints *)

(** ** Paths *)











(** ** Worlds along the endpoints *)

Section SyncEndpoints.
Variable E : Env.

Lemma quiet_asked P k w : quiet P w (asked k w).
Proof.
  repeat split; simpl; try lia. exists []. by rewrite app_nil_r.
Qed.

Lemma current_user_quiet P authorization :
  triple (current_user E authorization) (quiet P) (λ _, True) (λ _, True).
Proof.
  intros w. rewrite current_user_world. split; [reflexivity|].
  by destruct (current_user E authorization w).1.
Qed.

Lemma authorize_quiet P video_id user :
  triple (_authorize_video_access E video_id user) (quiet P)
    (λ r, r.1 = os_path_join (DATA_DIR E) video_id) (λ _, True).
Proof.
  intros w. destruct (authorize_world E video_id user w) as [k Hk].
  rewrite Hk. split; [apply quiet_asked|].
  unfold _authorize_video_access, read_meta, json_load_file, os_path_exists, bind, tick.
  simpl. destruct (fs_exists E (ticks w) _); simpl; [|done].
  destruct (fs_load_json E (S (ticks w)) _) as [d| |]; simpl; try done.
  destruct (bool_decide (d = ∅)); simpl; [done|].
  by destruct (negb _ && negb _).
Qed.

Lemma os_path_exists_quiet P path :
  triple (os_path_exists E path) (quiet P) (λ _, True) (λ _, True).
Proof. intros w. split; [apply quiet_tick | done]. Qed.

Lemma quiet_relax P w w' : quiet P w w' → quiet (λ _, True) w w'.
Proof.
  intros (HJ & HB & HT & cmds & Htr & _). repeat split; try done.
  exists cmds. split; [exact Htr|]. by apply Forall_true.
Qed.

Lemma split_sync_triple video_id parts mode authorization :
  triple (split_sync E video_id parts mode authorization)
    (quiet (λ _, True)) (sync_response_of E video_id mode) (λ _, True).
Proof.
  unfold split_sync. t_bind; [apply current_user_quiet|]. intros user _.
  t_bind; [apply authorize_quiet|]. intros [vdir meta] Hv. simpl in Hv. subst vdir.
  t_bind; [apply os_path_exists_quiet|]. intros present _.
  destruct (negb present); [by t_raise|].
  t_bind.
  - intros w.
    destruct (split_video_triple E (job_in_path E video_id) (job_out_dir E video_id mode)
                parts mode w) as [Hq Hr].
    split; [by apply quiet_relax in Hq|].
    destruct (split_video E _ _ parts mode w).1 as [e|files]; [exact I | exact Hr].
  - intros files (names & Hls & ->). t_ret. by exists names.
Qed.

(** X12. The synchronous split never uses the job registry: whatever
    [split_sync] returns or raises, the registry and the queue of background
    tasks are unchanged, and the only events are commands. *)
Theorem split_sync_leaves_the_registry_alone video_id parts mode authorization w :
  let w' := (split_sync E video_id parts mode authorization w).2 in
  JOBS w' = JOBS w ∧ background_tasks w' = background_tasks w ∧
  ∃ cmds, trace w' = (trace w ++ (Spawn <$> cmds))%list.
Proof.
  cbv zeta.
  destruct (split_sync_triple video_id parts mode authorization w)
    as [(HJ & HB & _ & cmds & Htr & _) _].
  split; [exact HJ|]. split; [exact HB|]. by exists cmds.
Qed.

End SyncEndpoints.

(** ** Serving files *)

Section FileEndpoints.
Variable E : Env.

(** What a response of [get_segment] is, and whom it is for. *)
Lemma get_segment_triple video_id mode filename authorization :
  triple (get_segment E video_id mode filename authorization)
    (quiet (λ _, False))
    (λ response,
       response = {| fr_path := segment_path E video_id mode filename;
                     fr_media_type := "video/mp4"; fr_filename := filename;
                     fr_headers := {[ "Cache-Control" := "public, max-age=3600" ]} |})
    (λ _, True).
Proof.
  unfold get_segment. t_bind; [apply current_user_quiet|]. intros user _.
  t_bind; [apply authorize_quiet|]. intros [vdir meta] Hv. simpl in Hv. subst vdir.
  t_bind; [apply os_path_exists_quiet|]. intros present _.
  destruct (negb present); [by t_raise | by t_ret].
Qed.

Lemma get_segment_granted video_id mode filename authorization w response w' :
  get_segment E video_id mode filename authorization w = (inr response, w') →
  ∃ user meta k,
    current_user E authorization w = (inr user, w) ∧
    _authorize_video_access E video_id user w
      = (inr (os_path_join (DATA_DIR E) video_id, meta), asked k w) ∧
    fs_exists E (k + ticks w) (segment_path E video_id mode filename) = true.
Proof.
  unfold get_segment. intros (user & w1 & Hu & H)%bind_inr.
  pose proof (current_user_world E authorization w) as Hw. rewrite Hu in Hw.
  simpl in Hw. subst w1.
  apply bind_inr in H as ([vdir meta] & w2 & Ha & H).
  destruct (authorize_world E video_id user w) as [k Hk]. rewrite Ha in Hk.
  simpl in Hk. subst w2.
  pose proof (authorize_quiet E (λ _, False) video_id user w) as [_ Hv].
  rewrite Ha in Hv. simpl in Hv. subst vdir.
  apply bind_inr in H as (present & w3 & Hp & H).
  unfold os_path_exists, bind, tick in Hp. simpl in Hp. injection Hp as <- <-.
  exists user, meta, k. split; [exact Hu|]. split; [exact Ha|].
  unfold segment_path.
  destruct (fs_exists E (k + ticks w) _); [done | discriminate].
Qed.

(** X14. [get_segment] answers only a caller whose token decodes and who
    passes the access check on the video, and only for a path that exists:
    the file served is [<data>/<id>/segments_<mode>/<filename>], with the
    media type [video/mp4], the given file name and the header
    [Cache-Control: public, max-age=3600]. It changes nothing in the
    registry and runs no command. *)
Theorem get_segment_serves_the_authorised video_id mode filename authorization w :
  let run := get_segment E video_id mode filename authorization w in
  (JOBS run.2 = JOBS w ∧ background_tasks run.2 = background_tasks w ∧
   trace run.2 = trace w) ∧
  ∀ response, run.1 = inr response →
    response = {| fr_path := segment_path E video_id mode filename;
                  fr_media_type := "video/mp4"; fr_filename := filename;
                  fr_headers := {[ "Cache-Control" := "public, max-age=3600" ]} |} ∧
    ∃ user meta k,
      (current_user E authorization w).1 = inr user ∧
      (_authorize_video_access E video_id user w).1
        = inr (os_path_join (DATA_DIR E) video_id, meta) ∧
      fs_exists E (k + ticks w) (segment_path E video_id mode filename) = true.
Proof.
  cbv zeta.
  destruct (get_segment_triple video_id mode filename authorization w)
    as [(HJ & HB & _ & cmds & Htr & Hcmds) Hres].
  split.
  { split; [exact HJ|]. split; [exact HB|].
    destruct cmds as [|c cmds]; [by rewrite Htr, app_nil_r|].
    by apply Forall_cons in Hcmds as [[] _]. }
  intros response Hrun. rewrite Hrun in Hres. split; [exact Hres|].
  destruct (get_segment E video_id mode filename authorization w) as [r w'] eqn:Hg.
  simpl in Hrun. subst r.
  destruct (get_segment_granted _ _ _ _ _ _ _ Hg) as (user & meta & k & Hu & Ha & Hex).
  exists user, meta, k. by rewrite Hu, Ha.
Qed.

(** X15. [get_source], which repeats the access check inline, decides as
    [_authorize_video_access] does: it is, step for step, the check of the
    helper followed by the existence test of [<data>/<id>/input.mp4], the
    only file it serves. *)
Theorem get_source_checks_as_the_helper video_id authorization w :
  get_source E video_id authorization w
  = (let* user := current_user E authorization in
     let* (vdir, _) := _authorize_video_access E video_id user in
     let* present := os_path_exists E (os_path_join vdir "input.mp4") in
     if negb present then raise (HTTPException 404 "Not found")
     else ret {| fr_path := job_in_path E video_id; fr_media_type := "video/mp4";
                 fr_filename := "input.mp4"; fr_headers := ∅ |}) w.
Proof.
  unfold get_source, _authorize_video_access, job_in_path.
  unfold bind at 1 4. destruct (current_user E authorization w) as [[e|user] w0]; [done|].
  unfold bind.
  destruct (read_meta E (os_path_join (DATA_DIR E) video_id) w0) as [[e|meta] w1];
    [done|].
  destruct (falsy_meta meta); [done|].
  by destruct (negb _ && negb _).
Qed.
End FileEndpoints.

(** * Looking up and listing the videos *)

Section VideoEndpoints.
Variable E : Env.

(** X16. Whoever [get_video] answers is not turned away by [get_source]:
    when [get_video] returns a record, the [source_url] in it is the route of
    [get_source] for the same identifier, the other fields are those of the
    metadata record the access check read, and [get_source], asked with the
    same credential, serves [<data>/<id>/input.mp4] or reports with 404
    [Not found] that the file is missing; it raises no 401, no 403 and no
    [Video not found]. *)
Theorem get_video_points_to_get_source video_id authorization w response :
  (get_video E video_id authorization w).1 = inr response →
  response !! "source_url" = Some (VStr (get_source_route video_id)) ∧
  response !! "video_id" = Some (VStr video_id) ∧
  (∃ user meta,
     (current_user E authorization w).1 = inr user ∧
     (_authorize_video_access E video_id user w).1
       = inr (os_path_join (DATA_DIR E) video_id, meta) ∧
     response !! "filename" = Some (dict_get meta "filename") ∧
     response !! "duration" = Some (dict_get meta "duration") ∧
     response !! "created_at" = Some (dict_get meta "created_at")) ∧
  match (get_source E video_id authorization w).1 with
  | inr file => fr_path file = job_in_path E video_id ∧ fr_filename file = "input.mp4"
  | inl e => e = HTTPException 404 "Not found"
  end.
Proof.
  destruct (get_video E video_id authorization w) as [r w'] eqn:H.
  simpl. intros ->. unfold get_video in H.
  apply bind_inr in H as (user & w0 & Hu & H).
  pose proof (current_user_world E authorization w) as Hw. rewrite Hu in Hw.
  simpl in Hw. subst w0.
  apply bind_inr in H as (meta & w1 & Hm & H).
  destruct (falsy_meta meta) eqn:Hfalsy; [discriminate|].
  destruct (negb _ && negb _) eqn:Hcheck; [discriminate|].
  unfold ret in H. injection H as <- _.
  split; [done|]. split; [done|]. split.
  { exists user, (default ∅ meta). rewrite Hu. split; [done|].
    unfold _authorize_video_access, bind. rewrite Hm, Hfalsy. cbv zeta.
    by rewrite Hcheck. }
  unfold get_source, job_in_path, bind. rewrite Hu, Hm, Hfalsy. cbv zeta.
  rewrite Hcheck. unfold os_path_exists, bind, tick, ret. simpl.
  by destruct (fs_exists E (ticks w1) _).
Qed.
End VideoEndpoints.

(** ** Pages *)

Lemma take_take_drop {A} (l : list A) (a b : nat) :
  take (a + b) l = (take a l ++ take b (drop a l))%list.
Proof.
  revert l. induction a as [|a IH]; intros l; [done|].
  destruct l as [|x l]; simpl; [by rewrite take_nil|]. by rewrite IH.
Qed.

(** From the first page on, a page is the next [page_size] items. *)
Lemma list_videos_page_take_drop {A} (items : list A) (page page_size : Z) :
  1 ≤ page → 0 ≤ page_size →
  list_videos_page items page page_size
  = take (Z.to_nat page_size) (drop (Z.to_nat ((page - 1) * page_size)) items).
Proof.
  intros Hpage Hsize. unfold list_videos_page, py_slice. cbv zeta.
  set (n := Z.of_nat (length items)).
  set (start := (page - 1) * page_size).
  assert (0 ≤ start) as Hstart by (subst start; nia).
  destruct (start <? 0) eqn:H1; [lia|]. destruct (start + page_size <? 0) eqn:H2; [lia|].
  destruct (decide (start ≤ n)) as [Hin | Hout].
  - rewrite (Z.min_l start n) by lia.
    destruct (decide (start + page_size ≤ n)) as [Hin' | Hout'].
    + rewrite Z.min_l by lia. f_equal. lia.
    + rewrite Z.min_r by lia.
      rewrite !take_ge; [done | |]; rewrite length_drop; subst n; lia.
  - rewrite !Z.min_r by lia. rewrite Z.sub_diag. simpl.
    rewrite (drop_ge items (Z.to_nat start)) by (subst n; lia).
    by rewrite take_nil.
Qed.

Lemma pages_concat {A} (items : list A) (page_size : Z) (n : nat) :
  0 ≤ page_size →
  concat ((λ k, list_videos_page items (Z.of_nat k) page_size) <$> seq 1 n)
  = take (n * Z.to_nat page_size) items.
Proof.
  intros Hsize. induction n as [|n IH]; [done|].
  rewrite seq_S, fmap_app, concat_app, IH. simpl. rewrite app_nil_r.
  rewrite list_videos_page_take_drop by lia.
  replace (Z.to_nat ((Z.of_nat (S n) - 1) * page_size))
    with (n * Z.to_nat page_size)%nat by nia.
  rewrite <- take_take_drop. f_equal. lia.
Qed.

(** X17. With a page size of at least 1, the pages of [list_videos] cut the
    sorted list into consecutive pieces: the pages 1, 2, ... up to any
    number that covers the list give, one after the other, exactly the list,
    no page is longer than [page_size], and a page past the last one is
    empty rather than an error. *)
Theorem list_videos_pages_partition {A} (items : list A) (page_size : Z) (n : nat) :
  1 ≤ page_size →
  Z.of_nat (length items) ≤ Z.of_nat n * page_size →
  concat ((λ k, list_videos_page items (Z.of_nat k) page_size) <$> seq 1 n) = items ∧
  (∀ page, 1 ≤ page →
     Z.of_nat (length (list_videos_page items page page_size)) ≤ page_size) ∧
  (∀ page, Z.of_nat n < page → list_videos_page items page page_size = []).
Proof.
  intros Hsize Hn. split; [|split].
  - rewrite pages_concat by lia. apply take_ge. nia.
  - intros page Hpage. rewrite list_videos_page_take_drop by lia.
    rewrite length_take. lia.
  - intros page Hpage. rewrite list_videos_page_take_drop by lia.
    rewrite drop_ge; [by rewrite take_nil | nia].
Qed.

(** X18. A page number below 1 is not refused. Page 0 is empty; a negative
    page [-p] counts from the end of the list: it is the stretch of
    [page_size] items that ends [p * page_size] items before the end (cut
    where the list begins). *)
Theorem list_videos_page_below_one {A} (items : list A) (page page_size : Z) :
  1 ≤ page_size → page ≤ 0 →
  list_videos_page items page page_size
  = if page =? 0 then []
    else
      let n := Z.of_nat (length items) in
      drop (Z.to_nat (n + (page - 1) * page_size))
        (take (Z.to_nat (n + page * page_size)) items).
Proof.
  intros Hsize Hpage. unfold list_videos_page, py_slice. cbv zeta.
  set (n := Z.of_nat (length items)).
  set (start := (page - 1) * page_size).
  assert (start < 0) as Hstart by (subst start; nia).
  destruct (start <? 0) eqn:H1; [|lia].
  destruct (page =? 0) eqn:H0.
  - assert (start + page_size = 0) as -> by (subst start; nia).
    simpl. rewrite Z.min_l by lia.
    replace (Z.to_nat (0 - Z.max (start + n) 0)) with 0%nat by lia. done.
  - assert (start + page_size < 0) as Hstop by (subst start; nia).
    destruct (start + page_size <? 0) eqn:H2; [|lia].
    assert (start + page_size = page * page_size) as Heq by (subst start; ring).
    rewrite take_drop_commute.
    replace (Z.to_nat ((start + n) `max` 0)) with (Z.to_nat (n + start)) by lia.
    do 2 f_equal. lia.
Qed.

(** ** The owner filter *)

Section Listing.
Variable E : Env.
Variable fs_isdir : nat → string → bool.

Lemma read_meta_loaded vdir w meta w' :
  read_meta E vdir w = (inr meta, w') →
  (∃ k, w' = asked k w) ∧
  ∀ d, meta = Some d → ∃ n, fs_load_json E n (json_meta_path vdir) = Loaded d.
Proof.
  unfold read_meta, json_load_file, os_path_exists, bind, tick, ret. simpl.
  destruct (fs_exists E (ticks w) _); simpl.
  - destruct (fs_load_json E (S (ticks w)) _) as [d| |] eqn:Hl; simpl; try done.
    intros [= <- <-]. split; [by exists 2%nat|].
    intros d' [= <-]. by exists (S (ticks w)).
  - intros [= <- <-]. split; [by exists 1%nat | done].
Qed.

Lemma asked_asked k k' w : asked k (asked k' w) = asked (k + k') w.
Proof. unfold asked. simpl. f_equal. lia. Qed.

(** The loop only adds entries the caller may see, in the order of the
    names. *)
Lemma list_videos_loop_spec user vids items w result w' :
  list_videos_loop E fs_isdir user vids items w = (inr result, w') →
  (∃ k, w' = asked k w) ∧
  ∃ shown new,
    result = (items ++ new)%list ∧ sublist shown vids ∧
    Forall2 (listed_video E user) shown new.
Proof.
  revert items w. induction vids as [|vid vids IH]; intros items w; simpl.
  { intros [= <- <-]. split; [by exists 0%nat; destruct w|].
    exists [], []. by rewrite app_nil_r. }
  intros (isdir & w1 & Hd & H)%bind_inr.
  unfold os_path_isdir, bind, tick, ret in Hd. simpl in Hd. injection Hd as <- <-.
  change {| JOBS := JOBS w; background_tasks := background_tasks w;
            trace := trace w; ticks := S (ticks w) |} with (asked 1 w) in H.
  assert (∀ items',
            list_videos_loop E fs_isdir user vids items' (asked 1 w) = (inr result, w') →
            (∃ k, w' = asked k w) ∧
            ∃ shown new, result = (items' ++ new)%list ∧ sublist shown (vid :: vids) ∧
                         Forall2 (listed_video E user) shown new) as Hskip.
  { intros items' ([k ->] & shown & new & -> & Hsub & Hall)%IH.
    split; [exists (k + 1)%nat; by rewrite asked_asked|].
    exists shown, new. split; [done|]. split; [by apply sublist_cons | done]. }
  destruct (negb (fs_isdir (ticks w) _)); [by apply Hskip|].
  apply bind_inr in H as (meta & w2 & Hm & H).
  apply read_meta_loaded in Hm as [[k ->] Hload].
  rewrite asked_asked in H.
  assert (∀ items',
            list_videos_loop E fs_isdir user vids items' (asked (k + 1) w)
              = (inr result, w') →
            (∃ k, w' = asked k w) ∧
            ∃ shown new, result = (items' ++ new)%list ∧ sublist shown vids ∧
                         Forall2 (listed_video E user) shown new) as Hnext.
  { intros items' ([k' ->] & shown & new & -> & Hsub & Hall)%IH.
    split; [exists (k' + (k + 1))%nat; by rewrite asked_asked|].
    by exists shown, new. }
  assert (∀ items',
            list_videos_loop E fs_isdir user vids items' (asked (k + 1) w)
              = (inr result, w') →
            (∃ k, w' = asked k w) ∧
            ∃ shown new, result = (items' ++ new)%list ∧ sublist shown (vid :: vids) ∧
                         Forall2 (listed_video E user) shown new) as Hskip'.
  { intros items' [Hk (shown & new & -> & Hsub & Hall)]%Hnext.
    split; [exact Hk|]. exists shown, new.
    split; [done|]. split; [by apply sublist_cons | done]. }
  destruct meta as [d|]; simpl in H; [|by apply Hskip'].
  destruct (bool_decide (d = ∅)) eqn:Hd; [by apply Hskip'|].
  apply bool_decide_eq_false in Hd.
  destruct (bool_decide _ || bool_decide _) eqn:Hshow; [|by apply Hskip'].
  apply Hnext in H as [Hk (shown & new & -> & Hsub & Hall)].
  split; [exact Hk|].
  exists (vid :: shown), (video_item vid d :: new).
  split; [by rewrite <- app_assoc|]. split; [by apply sublist_skip|].
  constructor; [|exact Hall].
  destruct (Hload d eq_refl) as [n Hn].
  exists d, n. split; [exact Hn|]. split; [exact Hd|]. split; [|done].
  apply orb_true_iff in Hshow as [Ho%bool_decide_eq_true | Ha%bool_decide_eq_true];
    [by left | by right].
Qed.

(** X19. The listing keeps the accounts apart. The items [list_videos]
    collects are entries of names found in the data directory, in the order
    of the directory listing, each built from a non-empty metadata record
    that was read for that name and that is owned by the caller, unless the
    caller is an administrator; collecting them changes neither the
    registry nor the task queue and runs no command. *)
Theorem list_videos_shows_only_own_videos authorization w items :
  (list_videos_items E fs_isdir authorization w).1 = inr items →
  (∃ k, (list_videos_items E fs_isdir authorization w).2 = asked k w) ∧
  ∃ user vids shown,
    (current_user E authorization w).1 = inr user ∧
    listed E (DATA_DIR E) vids ∧
    sublist shown vids ∧
    Forall2 (listed_video E user) shown items ∧
    (user_role user ≠ VStr "admin" →
     Forall (λ item, ∃ vid meta, item = video_item vid meta ∧
                                 dict_get meta "owner" = user) items).
Proof.
  destruct (list_videos_items E fs_isdir authorization w) as [r w'] eqn:Hrun.
  simpl. intros ->. unfold list_videos_items in Hrun.
  apply bind_inr in Hrun as (user & w0 & Hu & H).
  pose proof (current_user_world E authorization w) as Hw. rewrite Hu in Hw.
  simpl in Hw. subst w0.
  apply bind_inr in H as (vids & w1 & Hls & H).
  unfold os_listdir in Hls. destruct (has_nul (DATA_DIR E)); [discriminate|].
  unfold bind, tick in Hls. simpl in Hls.
  destruct (fs_listdir E (ticks w) (DATA_DIR E)) as [[errno msg]|names] eqn:Hnames;
    [discriminate|].
  unfold ret in Hls. injection Hls as <- <-.
  change {| JOBS := JOBS w; background_tasks := background_tasks w;
            trace := trace w; ticks := S (ticks w) |} with (asked 1 w) in H.
  apply list_videos_loop_spec in H as [[k ->] (shown & new & -> & Hsub & Hall)].
  split; [exists (k + 1)%nat; by rewrite asked_asked|].
  exists user, names, shown. rewrite Hu. split; [done|].
  split; [by exists (ticks w)|]. split; [exact Hsub|]. split; [exact Hall|].
  intros Hrole. simpl. clear -Hall Hrole.
  induction Hall as [|vid item shown new (meta & n & _ & _ & [Ho | Ha] & ->) _ IH];
    [done | | done].
  constructor; [by exists vid, meta | exact IH].
Qed.
End Listing.

(** * The further properties on the sample environments *)

(** X2 for the owner of [v1]. *)
Lemma access_iff_admin_or_owner_witness :
  (_authorize_video_access env_40s "v1" (VStr "user") initial_world).1
  = inr ("data/v1", sample_meta).
Proof.
  apply (access_iff_admin_or_owner env_40s "v1" (VStr "user") initial_world sample_meta).
  - reflexivity.
  - reflexivity.
  - split; [exact sample_meta_not_empty | right; reflexivity].
Defined.

(** X4 for the record of a finished job. *)
Lemma job_status_returns_the_stored_record_witness :
  let w := (serve_split_async env_40s "v1" 4 "fast" "Bearer t-user" initial_world).2 in
  (job_status env_40s "v1" "Bearer t-user" w).1
  = inr (done_record "fast" sample_segments (VStamp 1013)).
Proof.
  cbv zeta.
  apply (job_status_returns_the_stored_record env_40s "v1" "Bearer t-user" _
           (VStr "user") sample_meta).
  - vm_compute. reflexivity.
  - intros H. apply (f_equal (λ m : dict, m !! "status")) in H. discriminate.
  - vm_compute. reflexivity.
  - reflexivity.
  - reflexivity.
  - exact sample_meta_not_empty.
  - right. reflexivity.
Defined.

(** X5 for a caller who does not own [v1]. *)
Lemma refused_submission_leaves_no_mark_witness :
  JOBS (split_async env_40s "v1" 4 "fast" "Bearer t-guest" initial_world).2 = ∅.
Proof.
  apply (refused_submission_leaves_no_mark env_40s "v1" 4 "fast" "Bearer t-guest"
           initial_world (HTTPException 403 "Forbidden")).
  vm_compute. reflexivity.
Defined.

(** X6 for two different tokens of the account [user], one of which claims
    the role [admin]: on a video of another owner both are refused alike. *)
Lemma only_the_sub_claim_matters_witness :
  job_status env_other_owner "v5" ("Bearer " ++ "t-user") initial_world
    = job_status env_other_owner "v5" ("Bearer " ++ "t-user-claims-admin") initial_world ∧
  split_async env_other_owner "v5" 4 "fast" ("Bearer " ++ "t-user") initial_world
    = split_async env_other_owner "v5" 4 "fast" ("Bearer " ++ "t-user-claims-admin")
        initial_world ∧
  (job_status env_other_owner "v5" ("Bearer " ++ "t-user-claims-admin") initial_world).1
    = inl (HTTPException 403 "Forbidden").
Proof.
  destruct (only_the_sub_claim_matters env_other_owner "v5" 4 "fast"
              "t-user" "t-user-claims-admin"
              {[ "sub" := VStr "user"; "role" := VStr "user" ]}
              {[ "sub" := VStr "user"; "role" := VStr "admin" ]} initial_world)
    as [Hstatus Hsubmit].
  - reflexivity.
  - reflexivity.
  - reflexivity.
  - split; [exact Hstatus|]. split; [exact Hsubmit|]. vm_compute. reflexivity.
Defined.

(** X9 for zero parts. *)
Lemma parts_below_one_is_one_witness :
  split_video env_40s "in.mp4" "out" 0 "fast" initial_world
  = split_video env_40s "in.mp4" "out" 1 "fast" initial_world.
Proof.
  apply (parts_below_one_is_one env_40s "in.mp4" "out" "v1" 0 "fast" initial_world).
  lia.
Defined.


(** X16 for the owner of [v1]. *)
Lemma get_video_points_to_get_source_witness :
  (get_source env_40s "v1" "Bearer t-user" initial_world).1
  = inr {| fr_path := "data/v1/input.mp4"; fr_media_type := "video/mp4";
           fr_filename := "input.mp4"; fr_headers := ∅ |}.
Proof.
  destruct (get_video_points_to_get_source env_40s "v1" "Bearer t-user" initial_world
              (video_item_with_source "v1" sample_meta)) as (_ & _ & _ & H).
  - vm_compute. reflexivity.
  - vm_compute. reflexivity.
Defined.

(** X17 for five videos in pages of two. *)
Lemma list_videos_pages_partition_witness :
  concat ((λ k, list_videos_page ["e"; "d"; "c"; "b"; "a"] (Z.of_nat k) 2) <$> seq 1 3)
    = ["e"; "d"; "c"; "b"; "a"] ∧
  list_videos_page ["e"; "d"; "c"; "b"; "a"] 3 2 = ["a"] ∧
  list_videos_page ["e"; "d"; "c"; "b"; "a"] 4 2 = [].
Proof.
  destruct (list_videos_pages_partition ["e"; "d"; "c"; "b"; "a"] 2 3) as (H & _ & Hpast).
  - lia.
  - simpl. lia.
  - split; [exact H|]. split; [reflexivity|]. apply Hpast. lia.
Defined.

(** X18 for page -1 of five videos in pages of two: the two videos before
    the last two. *)
Lemma list_videos_page_below_one_witness :
  list_videos_page ["e"; "d"; "c"; "b"; "a"] (-1) 2 = ["d"; "c"].
Proof.
  rewrite (list_videos_page_below_one ["e"; "d"; "c"; "b"; "a"] (-1) 2).
  - reflexivity.
  - lia.
  - lia.
Defined.

(** X19 for the account [user] in a data directory with a video of its own,
    a video of [admin] and a stray file. *)
Lemma list_videos_shows_only_own_videos_witness :
  Forall (λ item, ∃ vid meta, item = video_item vid meta ∧
                              dict_get meta "owner" = VStr "user")
    [video_item "v1" (sample_listing_meta "user" "v1")].
Proof.
  destruct (list_videos_shows_only_own_videos env_listing sample_isdir
              "Bearer t-user" initial_world
              [video_item "v1" (sample_listing_meta "user" "v1")])
    as (_ & user & vids & shown & Hu & _ & _ & _ & Hown).
  - vm_compute. reflexivity.
  - injection Hu as <-. apply Hown. vm_compute. discriminate.
Defined.
